(** * PeerDrop: fastlane/frame_screenshots.py

    A shallow embedding of the screenshot framing script and the
    properties of its layout arithmetic, file selection and title lookup.

    Python [str] values are modelled as [string]s holding their UTF-8
    bytes.  Every text the script searches for, splits on or removes is
    ASCII, and an ASCII byte never occurs inside the encoding of another
    code point, so searching, splitting and replacing on the bytes agrees
    with the same operation on the code points. *)

From Stdlib Require Import ZArith String Ascii List Lia.
From stdpp Require Import base option list strings gmap pretty.

Local Open Scope string_scope.

(** ** Python string primitives *)

Module Str.

(** [s.startswith(p)] *)
Fixpoint startswith (p s : string) : bool :=
  match p, s with
  | EmptyString, _ => true
  | String _ _, EmptyString => false
  | String a p', String b s' => if Ascii.eqb a b then startswith p' s' else false
  end.

(** [sub in s] *)
Fixpoint contains (sub s : string) : bool :=
  match s with
  | EmptyString => startswith sub EmptyString
  | String _ s' => startswith sub s || contains sub s'
  end.

(** [s.split(sep)] for a one-character separator: the result is never
    empty, and two adjacent separators give an empty part. *)
Fixpoint split (sep : ascii) (s : string) : list string :=
  match s with
  | EmptyString => [EmptyString]
  | String c s' =>
      if Ascii.eqb c sep then EmptyString :: split sep s'
      else match split sep s' with
           | p :: ps => String c p :: ps
           | [] => [String c EmptyString]
           end
  end.

(** [s.replace(old, new)]: the non-overlapping occurrences of [old]
    are replaced from left to right.  [skip] counts the characters of
    a match that are still to be dropped.  With an empty [old] Python
    puts [new] before every character and at the end. *)
Fixpoint replace_from (old new : string) (skip : nat) (s : string) : string :=
  match s with
  | EmptyString =>
      match old with EmptyString => new | _ => EmptyString end
  | String c s' =>
      match skip with
      | S k => replace_from old new k s'
      | O =>
          match old with
          | EmptyString => new ++ String c (replace_from old new 0 s')
          | String _ old' =>
              if startswith old s
              then new ++ replace_from old new (String.length old') s'
              else String c (replace_from old new 0 s')
          end
      end
  end.

Definition replace (old new s : string) : string := replace_from old new 0 s.

(** [s.lstrip(chars)] for a one-character set. *)
Fixpoint lstrip (c : ascii) (s : string) : string :=
  match s with
  | String a s' => if Ascii.eqb a c then lstrip c s' else s
  | EmptyString => EmptyString
  end.

(** [s[i:j]] for [0 <= i <= j]. *)
Definition slice (i j : nat) (s : string) : string := String.substring i (j - i) s.

(** [s.rfind(c)] for one character, [None] standing for [-1]. *)
Fixpoint rfind (c : ascii) (s : string) : option nat :=
  match s with
  | EmptyString => None
  | String a s' =>
      match rfind c s' with
      | Some i => Some (S i)
      | None => if Ascii.eqb a c then Some 0 else None
      end
  end.

(** [s.lower()] on the ASCII letters.  Python's method also maps the
    cased letters outside ASCII; the script's behaviour is stated for
    an arbitrary lowering function, and this one serves for names made
    of ASCII characters. *)
Definition lower_ascii (a : ascii) : ascii :=
  let n := nat_of_ascii a in
  if (65 <=? n)%nat && (n <=? 90)%nat then ascii_of_nat (n + 32) else a.

Fixpoint lower (s : string) : string :=
  match s with
  | EmptyString => EmptyString
  | String a s' => String (lower_ascii a) (lower s')
  end.

(** The truth value of a string: empty is false. *)
Definition truthy (s : string) : bool :=
  match s with EmptyString => false | String _ _ => true end.

End Str.

(** ** pathlib

    A [PurePosixPath]: its root and its components.  The root is ["/"]
    for a text that starts with a slash, ["//"] when it starts with
    exactly two, and empty otherwise.  Parsing drops empty components
    and ["."] components, as pathlib does. *)

Module Path.

Record t := mk { root : string; parts : list string }.

Definition component (x : string) : bool :=
  Str.truthy x && negb (String.eqb x ".").

(** The root of a path text: two leading slashes are kept, one slash
    stands for one and for three and more. *)
Definition root_of (s : string) : string :=
  if Str.startswith "/" s then
    if (String.length s - String.length (Str.lstrip "/" s) =? 2)%nat then "//" else "/"
  else "".

(** [Path(s)] *)
Definition of_str (s : string) : t :=
  {| root := root_of s;
     parts := List.filter component (Str.split "/" s) |}.

Fixpoint join (ps : list string) : string :=
  match ps with
  | [] => ""
  | [p] => p
  | p :: ps' => p ++ "/" ++ join ps'
  end.

(** [str(p)] *)
Definition to_str (p : t) : string :=
  match root p, parts p with
  | EmptyString, [] => "."
  | r, ps => r ++ join ps
  end.

(** [p.name]: the final component, [''] when there is none. *)
Definition name (p : t) : string := List.last (parts p) "".

(** [p.stem]: the name without its last suffix; a dot that starts or
    ends the name is not a suffix dot ([0 < i < len(name) - 1]). *)
Definition stem (p : t) : string :=
  let name := name p in
  match Str.rfind "." name with
  | Some i =>
      if (0 <? i)%nat && (i <? String.length name - 1)%nat
      then Str.slice 0 i name
      else name
  | None => name
  end.

(** [p.parent] *)
Definition parent (p : t) : t :=
  {| root := root p; parts := List.removelast (parts p) |}.

(** [p / s]: a rooted right operand replaces the left one. *)
Definition joinpath (p : t) (s : string) : t :=
  let q := of_str s in
  if Str.truthy (root q) then q else {| root := root p; parts := parts p ++ parts q |}.

End Path.

(** ** Exceptions and results *)

(** An instance of Python's [Exception]: its class and its argument.
    What [except Exception] does not catch ([KeyboardInterrupt],
    [SystemExit]) is raised by nothing the script calls and is not
    modelled. *)
Inductive Exception : Type :=
  | Exc (cls : string) (arg : string).

Inductive result (A : Type) : Type :=
  | Return (a : A)
  | Raise (e : Exception).
Arguments Return {A} a.
Arguments Raise {A} e.

#[global] Instance result_ret : MRet result := @Return.
#[global] Instance result_bind : MBind result := λ A B f r,
  match r with
  | Return a => f a
  | Raise e => Raise e
  end.

(** [d[k]] and [d.get(k, default)] on a dict with string keys. *)
Definition getitem {V} (d : gmap string V) (k : string) : result V :=
  match d !! k with
  | Some v => Return v
  | None => Raise (Exc "KeyError" k)
  end.

Definition dict_get {V} (d : gmap string V) (k : string) (dflt : V) : V :=
  default dflt (d !! k).

(** ** Configuration *)

Definition BACKGROUND_COLORS : gmap string string :=
  {[ "light" := "#007AFF";
     "dark" := "#1C1C1E" ]}.

Definition PADDING : Z := 100.
Definition TITLE_PADDING : Z := 80.
Definition FONT_SIZE : Z := 72.

Definition TITLES : gmap string (gmap string string) :=
  {[ "en-US" := {[
       "01_NearbyTab" := "Discover Nearby Devices";
       "02_NearbyTabGrid" := "Grid View";
       "03_ConnectedTab" := "Active Connections";
       "04_ConnectionView" := "Connection Details";
       "05_ChatView" := "Secure Chat";
       "06_VoiceCallView" := "Voice Call";
       "07_LibraryTab" := "Device Library";
       "08_Settings" := "Settings";
       "09_QuickConnect" := "Quick Connect";
       "10_FileTransfer" := "File Transfer";
       "11_TransferHistory" := "Transfer History";
       "12_UserProfile" := "User Profile";
       "13_GroupDetail" := "Group Details" ]};
     "zh-Hant" := {[
       "01_NearbyTab" := "發現附近裝置";
       "02_NearbyTabGrid" := "網格檢視";
       "03_ConnectedTab" := "已連接裝置";
       "04_ConnectionView" := "連接詳情";
       "05_ChatView" := "安全聊天";
       "06_VoiceCallView" := "語音通話";
       "07_LibraryTab" := "裝置資料庫";
       "08_Settings" := "設定";
       "09_QuickConnect" := "快速連接";
       "10_FileTransfer" := "檔案傳輸";
       "11_TransferHistory" := "傳輸紀錄";
       "12_UserProfile" := "使用者資料";
       "13_GroupDetail" := "群組詳情" ]};
     "zh-Hans" := {[
       "01_NearbyTab" := "发现附近设备";
       "02_NearbyTabGrid" := "网格视图";
       "03_ConnectedTab" := "已连接设备";
       "04_ConnectionView" := "连接详情";
       "05_ChatView" := "安全聊天";
       "06_VoiceCallView" := "语音通话";
       "07_LibraryTab" := "设备库";
       "08_Settings" := "设置";
       "09_QuickConnect" := "快速连接";
       "10_FileTransfer" := "文件传输";
       "11_TransferHistory" := "传输记录";
       "12_UserProfile" := "用户资料";
       "13_GroupDetail" := "群组详情" ]};
     "ja" := {[
       "01_NearbyTab" := "近くのデバイスを発見";
       "02_NearbyTabGrid" := "グリッド表示";
       "03_ConnectedTab" := "アクティブな接続";
       "04_ConnectionView" := "接続の詳細";
       "05_ChatView" := "セキュアチャット";
       "06_VoiceCallView" := "音声通話";
       "07_LibraryTab" := "デバイスライブラリ";
       "08_Settings" := "設定";
       "09_QuickConnect" := "クイック接続";
       "10_FileTransfer" := "ファイル転送";
       "11_TransferHistory" := "転送履歴";
       "12_UserProfile" := "ユーザープロフィール";
       "13_GroupDetail" := "グループ詳細" ]};
     "ko" := {[
       "01_NearbyTab" := "주변 기기 발견";
       "02_NearbyTabGrid" := "그리드 보기";
       "03_ConnectedTab" := "활성 연결";
       "04_ConnectionView" := "연결 상세";
       "05_ChatView" := "보안 채팅";
       "06_VoiceCallView" := "음성 통화";
       "07_LibraryTab" := "기기 라이브러리";
       "08_Settings" := "설정";
       "09_QuickConnect" := "빠른 연결";
       "10_FileTransfer" := "파일 전송";
       "11_TransferHistory" := "전송 기록";
       "12_UserProfile" := "사용자 프로필";
       "13_GroupDetail" := "그룹 상세" ]} ]}.

(** ** hex_to_rgb *)

(** The value of one hexadecimal digit. *)
Definition hex_digit (a : ascii) : option Z :=
  let n := Z.of_nat (nat_of_ascii a) in
  if (48 <=? n)%Z && (n <=? 57)%Z then Some (n - 48)%Z
  else if (65 <=? n)%Z && (n <=? 70)%Z then Some (n - 55)%Z
  else if (97 <=? n)%Z && (n <=? 102)%Z then Some (n - 87)%Z
  else None.

Fixpoint hex_value (acc : Z) (s : string) : option Z :=
  match s with
  | EmptyString => Some acc
  | String a s' =>
      match hex_digit a with
      | Some d => hex_value (16 * acc + d)%Z s'
      | None => None
      end
  end.

(** [int(s, 16)] on a non-empty run of ASCII hexadecimal digits, which
    is all the colour constants hold.  The other spellings [int]
    accepts (a sign, blanks around the digits, an underscore between
    digits, digits outside ASCII) are left out: here they raise like
    any malformed text, and nothing below is stated of them. *)
Definition int16 (s : string) : result Z :=
  match s with
  | EmptyString => Raise (Exc "ValueError" s)
  | _ => match hex_value 0 s with
         | Some v => Return v
         | None => Raise (Exc "ValueError" s)
         end
  end.

Definition hex_to_rgb (hex_color : string) : result (Z * Z * Z) :=
  let hex_color := Str.lstrip "#" hex_color in
  r ← int16 (Str.slice 0 2 hex_color);
  g ← int16 (Str.slice 2 4 hex_color);
  b ← int16 (Str.slice 4 6 hex_color);
  mret (r, g, b).

(** ** get_title_for_screenshot *)

Definition get_title_for_screenshot (filename language : string) : result string :=
  let base := Path.stem (Path.of_str filename) in
  let parts := Str.split "-" base in
  let key := if (2 <=? length parts)%nat then List.last parts "" else base in
  let key := Str.replace "_Dark" "" key in
  en_US ← getitem TITLES "en-US";
  let lang_titles := dict_get TITLES language en_US in
  mret (dict_get lang_titles key "").

(** ** Pillow images

    An image is kept as the term that built it: a decoded file, a new
    canvas filled with one colour, a text drawn on an image, and an
    image pasted on another at a position.  [draw.text] and
    [output.paste] change the canvas in place; here each gives the new
    canvas, which the function rebinds.  Creating a canvas, drawing and
    pasting are taken to succeed; opening and saving may raise. *)

Inductive Font : Type :=
  | TrueType (path : string) (size : Z)
  | DefaultFont.

Inductive Image : Type :=
  | Decoded (size : Z * Z) (pixels : N)
  | New (mode : string) (size : Z * Z) (color : Z * Z * Z)
  | DrawText (im : Image) (xy : Z * Z) (text : string) (fill : string) (font : Font)
  | Pasted (im : Image) (src : Image) (box : Z * Z).

(** [im.size] *)
Fixpoint Image_size (im : Image) : Z * Z :=
  match im with
  | Decoded size _ => size
  | New _ size _ => size
  | DrawText im' _ _ _ _ => Image_size im'
  | Pasted im' _ _ => Image_size im'
  end.

(** ** The platform

    What the interpreter, the operating system and Pillow decide: case
    mapping, the text of an exception, the file system, font files and
    text measuring.  The script is modelled over any platform. *)

Class Platform : Type := {
  FS : Type;
  (** [s.lower()] *)
  str_lower : string → string;
  (** [str(e)] *)
  exc_str : Exception → string;
  (** [p.exists()], [p.is_dir()] *)
  path_exists : FS → Path.t → bool;
  path_is_dir : FS → Path.t → bool;
  (** [p.iterdir()] and [p.glob(pattern)], read when the loop starts. *)
  path_iterdir : FS → Path.t → result (list Path.t);
  path_glob : FS → Path.t → string → result (list Path.t);
  (** [os.path.exists(s)] *)
  os_path_exists : FS → string → bool;
  (** [Image.open(s)] *)
  Image_open : FS → string → result Image;
  (** [im.save(s, format, optimize=True)]: what it raises or returns,
      and the file system it leaves. *)
  Image_save : FS → Image → string → string → result unit * FS;
  (** [ImageFont.truetype(s, size)], [None] when it raises. *)
  ImageFont_truetype : FS → string → Z → option Font;
  (** [ImageFont.load_default()] *)
  ImageFont_load_default : Font;
  (** [draw.textbbox((0, 0), text, font=font)]: left, top, right, bottom. *)
  ImageDraw_textbbox : Font → string → Z * Z * Z * Z;
  (** What [print(line)] raises after the lines already printed, [None]
      when stdout takes the line: a stdout whose encoding lacks a
      character of the line raises UnicodeEncodeError. *)
  stdout_error : list string → string → option Exception;
}.

Section Script.

Context {Pl : Platform}.

(** The state the script runs in: the file system and what has been
    printed, one entry for each [print] call. *)
Record World : Type := mkWorld { fs : FS; stdout : list string }.

(** A computation reads and changes the world and returns or raises. *)
Definition M (A : Type) : Type := World → result A * World.

#[global] Instance M_ret : MRet M := λ A a w, (Return a, w).
#[global] Instance M_bind : MBind M := λ A B f m w,
  match m w with
  | (Return a, w') => f a w'
  | (Raise e, w') => (Raise e, w')
  end.

(** A pure step that may raise. *)
Definition lift {A} (r : result A) : M A := λ w, (r, w).

(** Reading the file system. *)
Definition read {A} (f : FS → A) : M A := λ w, (Return (f (fs w)), w).

(** [try: body except Exception as e: handler(e)] *)
Definition try_except {A} (body : M A) (handler : Exception → M A) : M A := λ w,
  match body w with
  | (Return a, w') => (Return a, w')
  | (Raise e, w') => handler e w'
  end.

(** [for x in xs: body], the loop's variables threaded through. *)
Fixpoint for_each {A S} (xs : list A) (body : A → S → M S) (s : S) : M S :=
  match xs with
  | [] => mret s
  | x :: xs' => s' ← body x s; for_each xs' body s'
  end.

(** [print(line)] for the two lines made of ASCII text, digits and the
    directory the caller named (the directory-not-found line and the
    last line): the line is added to what has been printed. *)
Definition print (line : string) : M unit := λ w,
  (Return tt, {| fs := fs w; stdout := stdout w ++ [line] |}).

(** [print(line)] for the lines that hold the check mark, the cross or
    a name read from the file system.  When stdout does not take the
    line the exception is raised and nothing of the line is printed. *)
Definition print_encoded (line : string) : M unit := λ w,
  match stdout_error (stdout w) line with
  | Some e => (Raise e, w)
  | None => print line w
  end.

(** [Image.open(path)] *)
Definition open (path : string) : M Image := λ w, (Image_open (fs w) path, w).

(** [im.save(path, format, optimize=True)] *)
Definition save (im : Image) (path format : string) : M unit := λ w,
  let '(r, fs') := Image_save (fs w) im path format in
  (r, {| fs := fs'; stdout := stdout w |}).

(** [p.iterdir()] and [p.glob(pattern)], as the lists the loops go
    through. *)
Definition iterdir (p : Path.t) : M (list Path.t) := λ w, (path_iterdir (fs w) p, w).
Definition glob (p : Path.t) (pattern : string) : M (list Path.t) := λ w,
  (path_glob (fs w) p pattern, w).

(** *** get_font *)

Fixpoint get_font_from (font_paths : list string) (size : Z) (f : FS) : Font :=
  match font_paths with
  | [] => ImageFont_load_default
  | font_path :: rest =>
      if os_path_exists f font_path then
        match ImageFont_truetype f font_path size with
        | Some font => font
        | None => get_font_from rest size f
        end
      else get_font_from rest size f
  end.

Definition get_font (size : Z) : M Font :=
  let font_paths :=
    [ "/System/Library/Fonts/SFNS.ttf";
      "/System/Library/Fonts/SFNSDisplay.ttf";
      "/System/Library/Fonts/Helvetica.ttc";
      "/Library/Fonts/Arial.ttf" ] in
  read (get_font_from font_paths size).

(** *** frame_screenshot *)

Definition frame_screenshot (input_path output_path language : string) : M bool :=
  let is_dark := Str.contains "_Dark" input_path in
  hex ← lift (if is_dark then getitem BACKGROUND_COLORS "dark"
              else getitem BACKGROUND_COLORS "light");
  bg_color ← lift (hex_to_rgb hex);
  screenshot ← open input_path;
  let '(ss_width, ss_height) := Image_size screenshot in
  title ← lift (get_title_for_screenshot input_path language);
  let output_width := (ss_width + PADDING * 2)%Z in
  let title_height :=
    if Str.truthy title then (TITLE_PADDING + FONT_SIZE + TITLE_PADDING)%Z else 0%Z in
  let output_height := (ss_height + title_height + PADDING)%Z in
  let output := New "RGB" (output_width, output_height) bg_color in
  output ← (if Str.truthy title then
              font ← get_font FONT_SIZE;
              let '(x0, _, x1, _) := ImageDraw_textbbox font title in
              let text_width := (x1 - x0)%Z in
              let text_x := ((output_width - text_width) `div` 2)%Z in
              let text_y := TITLE_PADDING in
              mret (DrawText output (text_x, text_y) title "white" font)
            else mret output);
  let screenshot_x := PADDING in
  let screenshot_y := title_height in
  let output := Pasted output screenshot (screenshot_x, screenshot_y) in
  save output output_path "PNG";;
  mret true.

(** *** process_screenshots *)

Definition nl : string := String "010" "".

(** The body of the loop over the files of one language directory;
    [continue] leaves the two counters as they are. *)
Definition process_file (language : string) (screenshot_file : Path.t)
    (counts : nat * nat) : M (nat * nat) :=
  let '(processed, skipped) := counts in
  if Str.contains "_framed" (Path.name screenshot_file) then mret (processed, skipped)
  else if Str.contains "background" (str_lower (Path.name screenshot_file))
  then mret (processed, skipped)
  else
    let output_name := Path.stem screenshot_file ++ "_framed.png" in
    let output_path := Path.joinpath (Path.parent screenshot_file) output_name in
    try_except
      (frame_screenshot (Path.to_str screenshot_file) (Path.to_str output_path) language;;
       print_encoded ("  ✓ " ++ Path.name screenshot_file);;
       mret (processed + 1, skipped)%nat)
      (λ e,
       print_encoded ("  ✗ " ++ Path.name screenshot_file ++ ": " ++ exc_str e);;
       mret (processed, skipped + 1)%nat).

(** The body of the loop over the entries of the screenshots
    directory. *)
Definition process_language (lang_dir : Path.t) (counts : nat * nat) : M (nat * nat) :=
  is_dir ← read (λ f, path_is_dir f lang_dir);
  if negb is_dir then mret counts
  else
    let language := Path.name lang_dir in
    print_encoded (nl ++ "Processing " ++ language ++ "...");;
    files ← glob lang_dir "*.png";
    for_each files (process_file language) counts.

Definition process_screenshots (screenshots_dir : string) : M bool :=
  let screenshots_path := Path.of_str screenshots_dir in
  found ← read (λ f, path_exists f screenshots_path);
  if negb found then
    print ("Error: Screenshots directory not found: " ++ screenshots_dir);;
    mret false
  else
    lang_dirs ← iterdir screenshots_path;
    '(processed, skipped) ← for_each lang_dirs process_language (0, 0)%nat;
    print (nl ++ "Done! Processed: " ++ pretty processed ++ ", Skipped: " ++ pretty skipped);;
    mret true.

End Script.

(** ** The entry point *)

Section Entry.

Context {Pl : Platform}.

(** The [__main__] block: [argv] is [sys.argv] and [file] is
    [__file__].  Without an argument [process_screenshots] is given the
    path beside the script; it is passed here by its text, which parses
    back to the same path. *)
Definition main (argv : list string) (file : string) : M unit :=
  let screenshots_dir :=
    if (1 <? length argv)%nat then nth 1 argv ""
    else
      let script_dir := Path.parent (Path.of_str file) in
      Path.to_str (Path.joinpath script_dir "screenshots") in
  process_screenshots screenshots_dir;;
  mret tt.

End Entry.

(** ** Reading the model

    The parts of [get_title_for_screenshot] and of the loop body that
    the statements below name. *)

(** The last part of the stem after a ['-'], or the whole stem (the
    value of [key] before ["_Dark"] is removed). *)
Definition key_part (filename : string) : string :=
  let base := Path.stem (Path.of_str filename) in
  let parts := Str.split "-" base in
  if (2 <=? length parts)%nat then List.last parts "" else base.

(** The extracted screenshot key, the one looked up. *)
Definition screenshot_key (filename : string) : string :=
  Str.replace "_Dark" "" (key_part filename).

Definition en_US_titles : gmap string string := default ∅ (TITLES !! "en-US").

(** The title table of the selected language:
    [TITLES.get(language, TITLES['en-US'])]. *)
Definition lang_titles (language : string) : gmap string string :=
  dict_get TITLES language en_US_titles.

(** The thirteen screenshot keys. *)
Definition screenshot_keys : gset string :=
  {[ "01_NearbyTab"; "02_NearbyTabGrid"; "03_ConnectedTab"; "04_ConnectionView";
     "05_ChatView"; "06_VoiceCallView"; "07_LibraryTab"; "08_Settings";
     "09_QuickConnect"; "10_FileTransfer"; "11_TransferHistory"; "12_UserProfile";
     "13_GroupDetail" ]}.

(** The colour a canvas was created with. *)
Fixpoint Image_background (im : Image) : option (Z * Z * Z) :=
  match im with
  | Decoded _ _ => None
  | New _ _ color => Some color
  | DrawText im' _ _ _ _ => Image_background im'
  | Pasted im' _ _ => Image_background im'
  end.

(** The texts drawn on a canvas, first drawn first: position, text,
    fill and font. *)
Fixpoint Image_texts (im : Image) : list (Z * Z * string * string * Font) :=
  match im with
  | Decoded _ _ | New _ _ _ => []
  | DrawText im' xy text fill font => Image_texts im' ++ [(xy, text, fill, font)]
  | Pasted im' _ _ => Image_texts im'
  end.

(** The images pasted on a canvas, first pasted first, each with the
    position of its upper left corner. *)
Fixpoint Image_pastes (im : Image) : list (Image * (Z * Z)) :=
  match im with
  | Decoded _ _ | New _ _ _ => []
  | DrawText im' _ _ _ _ => Image_pastes im'
  | Pasted im' src box => Image_pastes im' ++ [(src, box)]
  end.

(** A path as pathlib builds them: the root is none, ["/"] or ["//"],
    and every part is a proper component and holds no slash. *)
Definition path_ok (p : Path.t) : Prop :=
  (Path.root p = "" ∨ Path.root p = "/" ∨ Path.root p = "//")
  ∧ Forall (λ x, Path.component x = true ∧ Str.contains "/" x = false) (Path.parts p).

(** The path the loop saves the framed screenshot under. *)
Definition framed_path (screenshot_file : Path.t) : Path.t :=
  Path.joinpath (Path.parent screenshot_file) (Path.stem screenshot_file ++ "_framed.png").

(** The number of lines that start with [mark]. *)
Definition count_lines (mark : string) (lines : list string) : nat :=
  length (List.filter (Str.startswith mark) lines).

Section Reading.

Context {Pl : Platform}.

(** The file test of [process_screenshots]: neither of its two
    [continue] branches is taken. *)
Definition submitted (screenshot_file : Path.t) : bool :=
  negb (Str.contains "_framed" (Path.name screenshot_file))
  && negb (Str.contains "background" (str_lower (Path.name screenshot_file))).

(** The loop body without the file test: the [try] statement. *)
Definition attempt_frame (language : string) (screenshot_file : Path.t)
    (counts : nat * nat) : M (nat * nat) :=
  let '(processed, skipped) := counts in
  let output_name := Path.stem screenshot_file ++ "_framed.png" in
  let output_path := Path.joinpath (Path.parent screenshot_file) output_name in
  try_except
    (frame_screenshot (Path.to_str screenshot_file) (Path.to_str output_path) language;;
     print_encoded ("  ✓ " ++ Path.name screenshot_file);;
     mret (processed + 1, skipped)%nat)
    (λ e,
     print_encoded ("  ✗ " ++ Path.name screenshot_file ++ ": " ++ exc_str e);;
     mret (processed, skipped + 1)%nat).

(** What a stretch of a run from [w] to [w'] printed accounts for the
    change of the two counters: one line starting with the check mark
    for each file processed, one starting with the cross for each file
    skipped. *)
Definition logged (counts counts' : nat * nat) (w w' : World) : Prop :=
  ∃ new : list string,
    stdout w' = (stdout w ++ new)%list
    ∧ fst counts' = (fst counts + count_lines "  ✓ " new)%nat
    ∧ snd counts' = (snd counts + count_lines "  ✗ " new)%nat.

(** [get_font] passes over a font path when no file is there or the
    file does not load. *)
Definition passed_over (f : FS) (size : Z) (font_path : string) : Prop :=
  os_path_exists f font_path = false ∨ ImageFont_truetype f font_path size = None.

(** Stdout takes every line. *)
Definition stdout_takes_all : Prop :=
  ∀ (printed : list string) (line : string), stdout_error printed line = None.

(** The last line of a finished run. *)
Definition done_line (processed skipped : nat) : string :=
  nl ++ "Done! Processed: " ++ pretty processed ++ ", Skipped: " ++ pretty skipped.

End Reading.

(** ** A small platform

    A file system in memory, enough to run the script: a path names a
    directory with the names it lists, an image, a font file or some
    other file.  Lowering is the ASCII one, the text of an exception is
    its argument, and a text is 40 wide for each byte.  Stdout is
    either one that takes every line (UTF-8) or one that takes ASCII
    only. *)

Module Demo.

Inductive Node : Type :=
  | DirNode (names : list string)
  | ImageNode (im : Image)
  | FontNode
  | OtherNode.

Definition endswith_png (name : string) : bool :=
  let n := String.length name in
  (4 <=? n)%nat && String.eqb (String.substring (n - 4) 4 name) ".png".

Definition children (f : gmap string Node) (p : Path.t) : option (list Path.t) :=
  match f !! Path.to_str p with
  | Some (DirNode names) => Some (List.map (Path.joinpath p) names)
  | _ => None
  end.

(** An ASCII stdout: a line with a byte from 128 on raises. *)
Definition is_ascii (s : string) : bool :=
  forallb (λ a, (nat_of_ascii a <? 128)%nat) (list_ascii_of_string s).

Definition ascii_stdout (printed : list string) (line : string) : option Exception :=
  if is_ascii line then None
  else Some (Exc "UnicodeEncodeError" "'ascii' codec can't encode character").

Definition platform_with (stdout_error : list string → string → option Exception)
    : Platform := {|
  FS := gmap string Node;
  str_lower := Str.lower;
  exc_str := λ '(Exc _ arg), arg;
  path_exists := λ f p, bool_decide (is_Some (f !! Path.to_str p));
  path_is_dir := λ f p,
    match f !! Path.to_str p with Some (DirNode _) => true | _ => false end;
  path_iterdir := λ f p,
    match children f p with
    | Some ps => Return ps
    | None => Raise (Exc "NotADirectoryError" (Path.to_str p))
    end;
  path_glob := λ f p pattern,
    Return (List.filter (λ q, endswith_png (Path.name q)) (default [] (children f p)));
  os_path_exists := λ f s, bool_decide (is_Some (f !! s));
  Image_open := λ f s,
    match f !! s with
    | Some (ImageNode im) => Return im
    | Some _ => Raise (Exc "UnidentifiedImageError" ("cannot identify image file " ++ s))
    | None => Raise (Exc "FileNotFoundError" ("No such file or directory: " ++ s))
    end;
  Image_save := λ f im s format,
    match f !! s with
    | Some (DirNode _) => (Raise (Exc "IsADirectoryError" ("Is a directory: " ++ s)), f)
    | _ => (Return tt, <[s := ImageNode im]> f)
    end;
  ImageFont_truetype := λ f s size,
    match f !! s with Some FontNode => Some (TrueType s size) | _ => None end;
  ImageFont_load_default := DefaultFont;
  ImageDraw_textbbox := λ font text, (0, 0, 40 * Z.of_nat (String.length text), 72)%Z;
  stdout_error := stdout_error;
|}.

(** The platform with a stdout that takes every line. *)
Definition platform : Platform := platform_with (λ _ _, None).

(** The same platform with an ASCII stdout. *)
Definition ascii_platform : Platform := platform_with ascii_stdout.

(** A screenshots directory with one language; [broken.png] is not an
    image. *)
Definition shots : gmap string Node :=
  {[ "/shots" := DirNode ["en-US"; "notes.txt"];
     "/shots/notes.txt" := OtherNode;
     "/shots/en-US" := DirNode
       ["iPhone 17 Pro Max-01_NearbyTab.png";
        "iPhone 17 Pro Max-01_NearbyTab_Dark.png";
        "Background.png";
        "broken.png";
        "iPhone 17 Pro Max-01_NearbyTab_framed.png"];
     "/shots/en-US/iPhone 17 Pro Max-01_NearbyTab.png" := ImageNode (Decoded (1320, 2868)%Z 1);
     "/shots/en-US/iPhone 17 Pro Max-01_NearbyTab_Dark.png" := ImageNode (Decoded (1320, 2868)%Z 2);
     "/shots/en-US/Background.png" := ImageNode (Decoded (1320, 2868)%Z 3);
     "/shots/en-US/broken.png" := OtherNode;
     "/shots/en-US/iPhone 17 Pro Max-01_NearbyTab_framed.png" := ImageNode (Decoded (1520, 3200)%Z 4) ]}.

Definition start : @World platform := @mkWorld platform shots [].

(** The same start under the ASCII stdout. *)
Definition ascii_start : @World ascii_platform := @mkWorld ascii_platform shots [].

(** The same with a screenshot under a directory whose name holds
    "_Dark". *)
Definition themed : @World platform :=
  @mkWorld platform
    (<[ "/shots_Dark/en-US/iPhone 17 Pro Max-08_Settings.png" :=
          ImageNode (Decoded (1320, 2868)%Z 5) ]> shots) [].

End Demo.

(** * Properties *)

Example split_ex : Str.split "-" "iPhone 17 Pro Max-01_NearbyTab" = ["iPhone 17 Pro Max"; "01_NearbyTab"].
Proof. reflexivity. Qed.
Example replace_ex : Str.replace "_Dark" "" "01_NearbyTab_Dark" = "01_NearbyTab".
Proof. reflexivity. Qed.
Example replace_ex2 : Str.replace "" "-" "abc" = "-a-b-c-".
Proof. reflexivity. Qed.
Example replace_ex3 : Str.replace "aa" "b" "aaaaa" = "bba".
Proof. reflexivity. Qed.
Example stem_ex : Path.stem (Path.of_str "/a/b/en-US/iPhone 17 Pro Max-01_NearbyTab_Dark.png") = "iPhone 17 Pro Max-01_NearbyTab_Dark".
Proof. reflexivity. Qed.
Example stem_ex2 : Path.stem (Path.of_str ".png") = ".png" /\ Path.stem (Path.of_str "a.") = "a." /\ Path.stem (Path.of_str "a.tar.gz") = "a.tar".
Proof. repeat split; reflexivity. Qed.
Example to_str_ex : Path.to_str (Path.of_str "/a//b/./c/") = "/a/b/c" /\ Path.to_str (Path.of_str "") = ".".
Proof. repeat split; reflexivity. Qed.
Example root_ex :
  Path.to_str (Path.joinpath (Path.parent (Path.of_str "//x/y.py")) "screenshots") = "//x/screenshots"
  /\ Path.to_str (Path.joinpath (Path.parent (Path.of_str "///x/y.py")) "screenshots") = "/x/screenshots"
  /\ Path.to_str (Path.joinpath (Path.parent (Path.of_str "y.py")) "screenshots") = "screenshots"
  /\ Path.to_str (Path.of_str "//") = "//"
  /\ Path.to_str (Path.joinpath (Path.of_str "a/b") "/c") = "/c".
Proof. repeat split; reflexivity. Qed.
Example hex_ex : hex_to_rgb "#1C1C1E" = Return (28, 28, 30)%Z.
Proof. reflexivity. Qed.
Example title_ex : get_title_for_screenshot "/x/ja/iPhone 17 Pro Max-08_Settings_Dark.png" "ja" = Return "設定".
Proof. vm_compute. reflexivity. Qed.
Example title_ex2 : get_title_for_screenshot "/x/fr/iPhone 17 Pro Max-08_Settings_Dark.png" "fr" = Return "Settings".
Proof. vm_compute. reflexivity. Qed.

(** ** The title tables *)

Lemma getitem_en_US : getitem TITLES "en-US" = Return en_US_titles.
Proof. vm_cast_no_check (eq_refl (Return en_US_titles)). Qed.

Lemma get_title_for_screenshot_eq (filename language : string) :
  get_title_for_screenshot filename language
  = Return (dict_get (lang_titles language) (screenshot_key filename) "").
Proof.
  unfold get_title_for_screenshot. rewrite getitem_en_US. reflexivity.
Qed.

(** C6: [TITLES] holds exactly the five languages en-US, zh-Hant,
    zh-Hans, ja and ko; the table of each language has exactly the
    thirteen keys 01_NearbyTab to 13_GroupDetail, and each key is mapped
    to a title that is not empty. *)
Theorem TITLES_five_languages_thirteen_keys :
  size TITLES = 5%nat
  ∧ dom TITLES = {[ "en-US"; "zh-Hant"; "zh-Hans"; "ja"; "ko" ]}
  ∧ size screenshot_keys = 13%nat
  ∧ map_Forall (λ _ table,
      dom table = screenshot_keys ∧ map_Forall (λ _ title, title ≠ "") table) TITLES.
Proof.
  split; [ vm_compute; reflexivity |].
  split; [ vm_cast_no_check (eq_refl (dom TITLES)) |].
  split; [ vm_compute; reflexivity |].
  apply (bool_decide_unpack _). vm_compute. exact I.
Qed.

(** ** Removing ["_Dark"] *)

Section Dark.

Local Abbreviation remove_dark := (Str.replace_from "_Dark" "").

Lemma startswith_app (p s t : string) :
  Str.startswith p s = true → Str.startswith p (s ++ t) = true.
Proof.
  revert s. induction p as [|a p IH]; intros [|b s]; simpl; try done.
  destruct (Ascii.eqb a b); [apply IH | done].
Qed.

Lemma startswith_length (p s : string) :
  Str.startswith p s = true → (String.length p ≤ String.length s)%nat.
Proof.
  revert s. induction p as [|a p IH]; intros [|b s]; simpl; try done; try lia.
  destruct (Ascii.eqb a b); [| done]. intros Hp. apply IH in Hp. lia.
Qed.

Lemma append_cons (c : ascii) (s t : string) :
  String c s ++ t = String c (s ++ t).
Proof. reflexivity. Qed.

(** No occurrence of ["_Dark"] starts inside a text and ends inside a
    ["_Dark"] put after it: none of "Dark", "ark", "rk", "k" starts
    with an underscore. *)
Lemma startswith_dark_app (c : ascii) (s : string) :
  Str.startswith "_Dark" (String c s) = false →
  Str.startswith "_Dark" (String c s ++ "_Dark") = false.
Proof.
  rewrite append_cons. cbn [Str.startswith].
  destruct (Ascii.eqb_spec "_" c) as [<-|]; [| done].
  destruct s as [|c1 s]; [done |]. rewrite append_cons.
  destruct (Ascii.eqb_spec "D" c1) as [<-|]; [| done].
  destruct s as [|c2 s]; [done |]. rewrite append_cons.
  destruct (Ascii.eqb_spec "a" c2) as [<-|]; [| done].
  destruct s as [|c3 s]; [done |]. rewrite append_cons.
  destruct (Ascii.eqb_spec "r" c3) as [<-|]; [| done].
  destruct s as [|c4 s]; [done |]. rewrite append_cons.
  destruct (Ascii.eqb_spec "k" c4) as [<-|]; done.
Qed.

Lemma remove_dark_app (s : string) (skip : nat) :
  (skip ≤ String.length s)%nat →
  remove_dark skip (s ++ "_Dark") = remove_dark skip s.
Proof.
  revert skip. induction s as [|c s IH]; intros skip Hskip.
  - simpl in Hskip. replace skip with 0%nat by lia. reflexivity.
  - destruct skip as [|k].
    + rewrite append_cons. cbn [Str.replace_from].
      rewrite <- append_cons.
      destruct (Str.startswith "_Dark" (String c s)) eqn:Hp.
      * rewrite (startswith_app _ _ _ Hp).
        apply startswith_length in Hp. simpl in Hp.
        change ("" ++ ?x) with x. apply IH.
        change (String.length "Dark") with 4%nat. lia.
      * rewrite (startswith_dark_app _ _ Hp). f_equal. apply IH. lia.
    + rewrite append_cons. cbn [Str.replace_from]. apply IH.
      simpl in Hskip. lia.
Qed.

Lemma replace_dark_suffix (s : string) :
  Str.replace "_Dark" "" (s ++ "_Dark") = Str.replace "_Dark" "" s.
Proof. apply remove_dark_app. lia. Qed.

End Dark.

(** ** File names *)

Section FileNames.

(** [c not in s], for one character. *)
Local Abbreviation free c s := (Str.contains (String c "") s = false).

Lemma free_cons (c a : ascii) (s : string) :
  free c (String a s) ↔ a ≠ c ∧ free c s.
Proof.
  cbn [Str.contains Str.startswith].
  destruct (Ascii.eqb_spec c a) as [->|Hne].
  - destruct s; simpl; split; [done | by intros [[] _] | done | by intros [[] _]].
  - simpl. split; [by intros ? | by intros [_ ?]].
Qed.

Lemma free_app (c : ascii) (s t : string) :
  free c (s ++ t) ↔ free c s ∧ free c t.
Proof.
  induction s as [|a s IH].
  - change ("" ++ t) with t. split; [by intros ? | by intros [_ ?]].
  - rewrite append_cons, !free_cons, IH. tauto.
Qed.

Lemma length_app_string (s t : string) :
  String.length (s ++ t) = (String.length s + String.length t)%nat.
Proof.
  induction s as [|a s IH]; [reflexivity |].
  rewrite append_cons. cbn [String.length]. rewrite IH. reflexivity.
Qed.

Lemma append_assoc (a b c : string) : (a ++ b) ++ c = a ++ (b ++ c).
Proof.
  induction a as [|x a IH]; [reflexivity |].
  rewrite !append_cons, IH. reflexivity.
Qed.

Lemma split_not_nil (sep : ascii) (s : string) : Str.split sep s ≠ [].
Proof.
  destruct s as [|a s]; [done |]. cbn [Str.split].
  destruct (Ascii.eqb a sep); [done |]. by destruct (Str.split sep s).
Qed.

Lemma split_free (sep : ascii) (s : string) : free sep s → Str.split sep s = [s].
Proof.
  induction s as [|a s IH]; [done |].
  rewrite free_cons. intros [Hne Hs]. cbn [Str.split].
  destruct (Ascii.eqb_spec a sep); [done |]. rewrite (IH Hs). reflexivity.
Qed.

Lemma split_app_sep (sep : ascii) (a b : string) :
  Str.split sep (a ++ String sep b) = (Str.split sep a ++ Str.split sep b)%list.
Proof.
  induction a as [|c a IH].
  - change ("" ++ String sep b) with (String sep b). cbn [Str.split].
    rewrite Ascii.eqb_refl. reflexivity.
  - rewrite append_cons. cbn [Str.split]. rewrite IH.
    destruct (Ascii.eqb c sep); [reflexivity |].
    pose proof (split_not_nil sep a). by destruct (Str.split sep a).
Qed.

Lemma rfind_free (c : ascii) (s : string) : free c s → Str.rfind c s = None.
Proof.
  induction s as [|a s IH]; [done |].
  rewrite free_cons. intros [Hne Hs]. cbn [Str.rfind]. rewrite (IH Hs).
  destruct (Ascii.eqb_spec a c); done.
Qed.

Lemma rfind_app (c : ascii) (a b : string) :
  free c b → Str.rfind c (a ++ String c b) = Some (String.length a).
Proof.
  intros Hb. induction a as [|x a IH].
  - change ("" ++ String c b) with (String c b). cbn [Str.rfind].
    rewrite (rfind_free _ _ Hb), Ascii.eqb_refl. reflexivity.
  - rewrite append_cons. cbn [Str.rfind]. rewrite IH. reflexivity.
Qed.

Lemma slice_app (a b : string) : Str.slice 0 (String.length a) (a ++ b) = a.
Proof.
  unfold Str.slice. rewrite Nat.sub_0_r.
  induction a as [|x a IH]; [by destruct b |].
  rewrite append_cons. cbn [String.length String.substring]. by rewrite IH.
Qed.

Lemma name_of_str_app (dir n : string) :
  free "/" n → Path.component n = true →
  Path.name (Path.of_str (dir ++ "/" ++ n)) = n.
Proof.
  intros Hfree Hcomp. unfold Path.name, Path.of_str. cbn [Path.parts].
  change ("/" ++ n) with (String "/" n).
  rewrite split_app_sep, (split_free _ _ Hfree), List.filter_app.
  cbn [List.filter]. rewrite Hcomp. apply List.last_last.
Qed.

Lemma stem_of_str_png (dir base : string) :
  free "/" base → base ≠ "" →
  Path.stem (Path.of_str (dir ++ "/" ++ base ++ ".png")) = base.
Proof.
  intros Hfree Hne. unfold Path.stem.
  rewrite name_of_str_app.
  - change (".png") with (String "." "png").
    rewrite rfind_app by reflexivity.
    rewrite length_app_string. change (String.length (String "." "png")) with 4%nat.
    destruct base as [|x base]; [done |]. cbn [String.length].
    replace (0 <? S _)%nat with true by (symmetry; apply Nat.ltb_lt; lia).
    replace (S (String.length base) <? _)%nat with true by (symmetry; apply Nat.ltb_lt; lia).
    cbn [andb]. apply (slice_app (String x base)).
  - apply free_app. split; [exact Hfree | reflexivity].
  - destruct base as [|x base]; [done |]. rewrite append_cons.
    unfold Path.component. cbn [Str.truthy andb].
    destruct base as [|y base]; [change ("" ++ ".png") with ".png" | rewrite append_cons];
      cbn [String.eqb]; destruct (Ascii.eqb x "."); reflexivity.
Qed.

Lemma key_part_of_name (dir device key : string) :
  free "/" device → free "/" key → free "-" key →
  key_part (dir ++ "/" ++ device ++ "-" ++ key ++ ".png") = key.
Proof.
  intros Hdev Hkey Hdash. unfold key_part.
  replace (dir ++ "/" ++ device ++ "-" ++ key ++ ".png")
    with (dir ++ "/" ++ (device ++ "-" ++ key) ++ ".png").
  2:{ rewrite !(append_assoc device). reflexivity. }
  rewrite stem_of_str_png.
  - change ("-" ++ key) with (String "-" key).
    rewrite split_app_sep, (split_free _ _ Hdash), length_app.
    pose proof (split_not_nil "-" device) as Hn.
    destruct (Str.split "-" device) as [|p ps] eqn:Hsplit; [done |].
    cbn [length]. replace (2 <=? _)%nat with true by (symmetry; apply Nat.leb_le; lia).
    apply List.last_last.
  - apply free_app. split; [exact Hdev |]. change ("-" ++ key) with (String "-" key).
    apply free_cons. split; [done | exact Hkey].
  - destruct device; discriminate.
Qed.

End FileNames.

(** ** get_title_for_screenshot *)

(** C3: when the screenshot key extracted from the file name is not a
    key of the title table of the selected language, the function
    returns the empty string; it does not raise. *)
Theorem get_title_unknown_key_empty (filename language : string) :
  lang_titles language !! screenshot_key filename = None →
  get_title_for_screenshot filename language = Return "".
Proof.
  intros Hkey. rewrite get_title_for_screenshot_eq.
  unfold dict_get at 1. rewrite Hkey. reflexivity.
Qed.

Lemma get_title_unknown_key_empty_witness :
  lang_titles "ko" !! screenshot_key "/shots/ko/iPad-14_Widgets_Dark.png" = None
  ∧ get_title_for_screenshot "/shots/ko/iPad-14_Widgets_Dark.png" "ko" = Return "".
Proof.
  assert (Hkey : lang_titles "ko" !! screenshot_key "/shots/ko/iPad-14_Widgets_Dark.png" = None)
    by (vm_compute; reflexivity).
  split; [exact Hkey | exact (get_title_unknown_key_empty _ _ Hkey)].
Defined.

Lemma en_US_titles_not_empty (key : string) :
  key ∈ screenshot_keys → ∃ title, en_US_titles !! key = Some title ∧ title ≠ "".
Proof.
  intros Hkey.
  assert (Hdom : dom en_US_titles = screenshot_keys)
    by (vm_cast_no_check (eq_refl screenshot_keys)).
  assert (Hall : map_Forall (λ _ title, title ≠ "") en_US_titles)
    by (apply (bool_decide_unpack _); vm_compute; exact I).
  rewrite <- Hdom in Hkey. apply elem_of_dom in Hkey as [title Htitle].
  exists title. split; [exact Htitle | exact (Hall _ _ Htitle)].
Qed.

(** C9: for a language code that is not a key of [TITLES] the title is
    looked up in the en-US table: the function returns what it returns
    for en-US, which for each of the thirteen keys is the English title,
    not the empty string. *)
Theorem get_title_unknown_language_en_US (filename language : string) :
  TITLES !! language = None →
  get_title_for_screenshot filename language
  = Return (dict_get en_US_titles (screenshot_key filename) "")
  ∧ get_title_for_screenshot filename language
    = get_title_for_screenshot filename "en-US"
  ∧ (screenshot_key filename ∈ screenshot_keys →
     ∃ title, get_title_for_screenshot filename language = Return title ∧ title ≠ "").
Proof.
  intros Hlang.
  assert (Hen : lang_titles "en-US" = en_US_titles)
    by (vm_cast_no_check (eq_refl en_US_titles)).
  assert (Hl : lang_titles language = en_US_titles).
  { unfold lang_titles, dict_get. rewrite Hlang. reflexivity. }
  rewrite !get_title_for_screenshot_eq, Hen, Hl.
  split; [reflexivity |]. split; [reflexivity |].
  intros Hkey. destruct (en_US_titles_not_empty _ Hkey) as (title & Htitle & Hne).
  exists title. unfold dict_get. rewrite Htitle. split; [reflexivity | exact Hne].
Qed.

Lemma get_title_unknown_language_en_US_witness :
  TITLES !! "fr-FR" = None
  ∧ get_title_for_screenshot "/shots/fr-FR/iPhone 17 Pro Max-05_ChatView.png" "fr-FR"
    = Return "Secure Chat".
Proof.
  assert (Hlang : TITLES !! "fr-FR" = None) by (vm_compute; reflexivity).
  split; [exact Hlang |].
  rewrite (proj1 (get_title_unknown_language_en_US
    "/shots/fr-FR/iPhone 17 Pro Max-05_ChatView.png" "fr-FR" Hlang)).
  vm_compute. reflexivity.
Defined.

(** C10: a file name whose key part is K followed by ["_Dark"] gets the
    title of a file name whose key part is K, in every language, since
    the ["_Dark"] is removed before the lookup.  So it is for the names
    the screenshots have, [device-K_Dark.png] and [device-K.png] in any
    directory. *)
Theorem get_title_dark_same_as_light :
  (∀ dark_name light_name language : string,
     key_part dark_name = key_part light_name ++ "_Dark" →
     get_title_for_screenshot dark_name language
     = get_title_for_screenshot light_name language)
  ∧ (∀ dir device key language : string,
       Str.contains "/" device = false →
       Str.contains "/" key = false →
       Str.contains "-" key = false →
       get_title_for_screenshot (dir ++ "/" ++ device ++ "-" ++ key ++ "_Dark.png") language
       = get_title_for_screenshot (dir ++ "/" ++ device ++ "-" ++ key ++ ".png") language).
Proof.
  assert (Hkeys : ∀ dark_name light_name language : string,
            key_part dark_name = key_part light_name ++ "_Dark" →
            get_title_for_screenshot dark_name language
            = get_title_for_screenshot light_name language).
  { intros dark_name light_name language Hkey. rewrite !get_title_for_screenshot_eq.
    unfold screenshot_key. rewrite Hkey, replace_dark_suffix. reflexivity. }
  split; [exact Hkeys |].
  intros dir device key language Hdev Hkey Hdash. apply Hkeys.
  rewrite (key_part_of_name dir device key Hdev Hkey Hdash).
  change "_Dark.png" with ("_Dark" ++ ".png"). rewrite <- (append_assoc key).
  apply key_part_of_name; [exact Hdev | |]; apply free_app; split; done.
Qed.

Lemma get_title_dark_same_as_light_witness :
  (key_part "/shots/ja/iPhone 17 Pro Max-08_Settings_Dark.png" = "08_Settings_Dark"
   ∧ key_part "/shots/ja/iPhone 17 Pro Max-08_Settings.png" = "08_Settings"
   ∧ get_title_for_screenshot "/shots/ja/iPhone 17 Pro Max-08_Settings_Dark.png" "ja"
     = get_title_for_screenshot "/shots/ja/iPhone 17 Pro Max-08_Settings.png" "ja")
  ∧ get_title_for_screenshot
      ("/shots/ko" ++ "/" ++ "iPad Pro 13-inch (M4)" ++ "-" ++ "05_ChatView" ++ "_Dark.png") "ko"
    = get_title_for_screenshot
        ("/shots/ko" ++ "/" ++ "iPad Pro 13-inch (M4)" ++ "-" ++ "05_ChatView" ++ ".png") "ko".
Proof.
  split.
  - split; [reflexivity |]. split; [reflexivity |].
    apply (proj1 get_title_dark_same_as_light). reflexivity.
  - apply (proj2 get_title_dark_same_as_light); reflexivity.
Defined.

(** ** frame_screenshot *)

Section Framing.

Context {Pl : Platform}.

Lemma theme_hex (is_dark : bool) :
  (if is_dark then getitem BACKGROUND_COLORS "dark" else getitem BACKGROUND_COLORS "light")
  = Return (if is_dark then "#1C1C1E" else "#007AFF").
Proof. destruct is_dark; vm_compute; reflexivity. Qed.

Lemma theme_rgb (is_dark : bool) :
  hex_to_rgb (if is_dark then "#1C1C1E" else "#007AFF")
  = Return (if is_dark then (28, 28, 30) else (0, 122, 255))%Z.
Proof. destruct is_dark; reflexivity. Qed.

(** [get_font] always returns a font and leaves the world as it is. *)
Lemma get_font_run (size : Z) (w : World) :
  ∃ font, get_font size w = (Return font, w).
Proof. eexists. reflexivity. Qed.

Lemma bind_returns {A B} (m : M A) (f : A → M B) (w w' : World) (a : A) :
  m w = (Return a, w') → (m ≫= f) w = f a w'.
Proof. intros Hm. unfold mbind, M_bind. rewrite Hm. reflexivity. Qed.

Lemma bind_raises {A B} (m : M A) (f : A → M B) (w w' : World) (e : Exception) :
  m w = (Raise e, w') → (m ≫= f) w = (Raise e, w').
Proof. intros Hm. unfold mbind, M_bind. rewrite Hm. reflexivity. Qed.

Lemma bind_bind_returns {A B C} (m : M A) (g : A → M B) (k : B → M C)
    (w w' : World) (a : A) :
  m w = (Return a, w') → ((m ≫= g) ≫= k) w = (g a ≫= k) w'.
Proof.
  intros Hm. unfold mbind at 1 3. unfold M_bind.
  rewrite (bind_returns _ _ _ _ _ Hm). reflexivity.
Qed.

(** Once the screenshot is open, the function builds one canvas and
    saves it; it raises only what saving raises. *)
Lemma frame_screenshot_run (input_path output_path language : string) (w : World)
    (screenshot : Image) (title : string) (font : Font) :
  Image_open (fs w) input_path = Return screenshot →
  get_title_for_screenshot input_path language = Return title →
  get_font FONT_SIZE w = (Return font, w) →
  let bg := (if Str.contains "_Dark" input_path then (28, 28, 30) else (0, 122, 255))%Z in
  let title_height :=
    (if Str.truthy title then TITLE_PADDING + FONT_SIZE + TITLE_PADDING else 0)%Z in
  let output_width := (fst (Image_size screenshot) + PADDING * 2)%Z in
  let output_height := (snd (Image_size screenshot) + title_height + PADDING)%Z in
  let base := New "RGB" (output_width, output_height) bg in
  let '(x0, _, x1, _) := ImageDraw_textbbox font title in
  let titled :=
    if Str.truthy title
    then DrawText base ((output_width - (x1 - x0)) `div` 2, TITLE_PADDING)%Z title "white" font
    else base in
  frame_screenshot input_path output_path language w
  = (save (Pasted titled screenshot (PADDING, title_height)) output_path "PNG";; mret true) w.
Proof.
  intros Hopen Htitle Hfont. unfold frame_screenshot.
  rewrite theme_hex, Htitle.
  unfold mbind at 1 2 3 4. unfold M_bind, lift, open.
  rewrite theme_rgb, Hopen.
  destruct (Image_size screenshot) as [ss_width ss_height].
  destruct (Str.truthy title).
  - rewrite (bind_bind_returns _ _ _ _ _ _ Hfont).
    destruct (ImageDraw_textbbox font title) as [[[x0 y0] x1] y1]. reflexivity.
  - destruct (ImageDraw_textbbox font title) as [[[x0 y0] x1] y1]. reflexivity.
Qed.

Lemma truthy_spec (s : string) : Str.truthy s = true ↔ s ≠ "".
Proof. destruct s; simpl; split; congruence. Qed.

(** C1: for every input image the canvas the function builds and saves
    is as wide as the screenshot plus the padding on both sides:
    output_width = input_width + 2 * PADDING, with PADDING = 100. *)
Theorem frame_screenshot_output_width
    (input_path output_path language : string) (w : World) (screenshot : Image) :
  Image_open (fs w) input_path = Return screenshot →
  ∃ output,
    frame_screenshot input_path output_path language w
    = (save output output_path "PNG";; mret true) w
    ∧ fst (Image_size output) = (fst (Image_size screenshot) + 2 * PADDING)%Z
    ∧ PADDING = 100%Z.
Proof.
  intros Hopen.
  destruct (get_font_run FONT_SIZE w) as [font Hfont].
  pose proof (frame_screenshot_run input_path output_path language w screenshot _ font
                Hopen (get_title_for_screenshot_eq _ _) Hfont) as Hrun.
  cbv zeta in Hrun.
  destruct (ImageDraw_textbbox font _) as [[[x0 y0] x1] y1].
  eexists. split; [exact Hrun |]. split; [| reflexivity].
  destruct (Str.truthy _); simpl; lia.
Qed.

(** C5: the canvas is created with the colour of the theme: the dark
    colour #1C1C1E, that is (28, 28, 30), exactly when "_Dark" occurs in
    the input path, and the light colour #007AFF, that is
    (0, 122, 255), otherwise. *)
Theorem frame_screenshot_background
    (input_path output_path language : string) (w : World) (screenshot : Image) :
  Image_open (fs w) input_path = Return screenshot →
  ∃ output,
    frame_screenshot input_path output_path language w
    = (save output output_path "PNG";; mret true) w
    ∧ Image_background output
      = Some (if Str.contains "_Dark" input_path then (28, 28, 30) else (0, 122, 255))%Z
    ∧ (BACKGROUND_COLORS !! "dark" ≫= λ c, Some (hex_to_rgb c)) = Some (Return (28, 28, 30)%Z)
    ∧ (BACKGROUND_COLORS !! "light" ≫= λ c, Some (hex_to_rgb c)) = Some (Return (0, 122, 255)%Z)
    ∧ dom BACKGROUND_COLORS = {[ "light"; "dark" ]}.
Proof.
  intros Hopen.
  destruct (get_font_run FONT_SIZE w) as [font Hfont].
  pose proof (frame_screenshot_run input_path output_path language w screenshot _ font
                Hopen (get_title_for_screenshot_eq _ _) Hfont) as Hrun.
  cbv zeta in Hrun.
  destruct (ImageDraw_textbbox font _) as [[[x0 y0] x1] y1].
  eexists. split; [exact Hrun |].
  split; [destruct (Str.truthy _); reflexivity |].
  repeat split; vm_compute; reflexivity.
Qed.

(** C7: a title that is not empty is drawn once, centred: its left x is
    (output_width - text_width) // 2, where text_width is the width of
    the bounding box of the title in the font [get_font] chose, and its
    top y is TITLE_PADDING. *)
Theorem frame_screenshot_title_centered
    (input_path output_path language : string) (w : World) (screenshot : Image)
    (title : string) (font : Font) :
  Image_open (fs w) input_path = Return screenshot →
  get_title_for_screenshot input_path language = Return title →
  title ≠ "" →
  get_font FONT_SIZE w = (Return font, w) →
  ∃ output,
    frame_screenshot input_path output_path language w
    = (save output output_path "PNG";; mret true) w
    ∧ let '(bbox0, _, bbox2, _) := ImageDraw_textbbox font title in
      let output_width := fst (Image_size output) in
      let text_width := (bbox2 - bbox0)%Z in
      Image_texts output
      = [(((output_width - text_width) `div` 2)%Z, TITLE_PADDING, title, "white", font)].
Proof.
  intros Hopen Htitle Hne Hfont.
  pose proof (frame_screenshot_run input_path output_path language w screenshot title font
                Hopen Htitle Hfont) as Hrun.
  cbv zeta in Hrun.
  apply truthy_spec in Hne. rewrite Hne in Hrun.
  destruct (ImageDraw_textbbox font title) as [[[x0 y0] x1] y1].
  eexists. split; [exact Hrun |]. reflexivity.
Qed.

(** C8: with an empty title the title band is 0 high: nothing is drawn,
    the screenshot is pasted at y = 0 and the canvas is as high as the
    screenshot plus PADDING.  With a title that is not empty the canvas
    is as high as the screenshot plus 2 * TITLE_PADDING + FONT_SIZE +
    PADDING and the screenshot is pasted at y = 2 * TITLE_PADDING +
    FONT_SIZE.  In both cases it is pasted at x = PADDING. *)
Theorem frame_screenshot_title_band
    (input_path output_path language : string) (w : World) (screenshot : Image)
    (title : string) :
  Image_open (fs w) input_path = Return screenshot →
  get_title_for_screenshot input_path language = Return title →
  ∃ output,
    frame_screenshot input_path output_path language w
    = (save output output_path "PNG";; mret true) w
    ∧ (title = "" →
       Image_texts output = []
       ∧ Image_pastes output = [(screenshot, (PADDING, 0%Z))]
       ∧ snd (Image_size output) = (snd (Image_size screenshot) + PADDING)%Z)
    ∧ (title ≠ "" →
       Image_pastes output = [(screenshot, (PADDING, 2 * TITLE_PADDING + FONT_SIZE)%Z)]
       ∧ snd (Image_size output)
         = (snd (Image_size screenshot) + 2 * TITLE_PADDING + FONT_SIZE + PADDING)%Z).
Proof.
  intros Hopen Htitle.
  destruct (get_font_run FONT_SIZE w) as [font Hfont].
  pose proof (frame_screenshot_run input_path output_path language w screenshot title font
                Hopen Htitle Hfont) as Hrun.
  cbv zeta in Hrun.
  destruct (ImageDraw_textbbox font title) as [[[x0 y0] x1] y1].
  eexists. split; [exact Hrun |]. split.
  - intros ->. simpl. repeat split. lia.
  - intros Hne. apply truthy_spec in Hne. rewrite Hne. simpl. repeat split.
    unfold TITLE_PADDING, FONT_SIZE, PADDING. lia.
Qed.

End Framing.

(** ** process_screenshots *)

Section Batch.

Context {Pl : Platform}.

Lemma for_each_cons {A S} (x : A) (xs : list A) (body : A → S → M S) (s : S) :
  for_each (x :: xs) body s = (body x s ≫= for_each xs body).
Proof. reflexivity. Qed.

Lemma process_file_eq (language : string) (file : Path.t) (counts : nat * nat) :
  process_file language file counts
  = if submitted file then attempt_frame language file counts else mret counts.
Proof.
  unfold process_file, submitted, attempt_frame. destruct counts as [processed skipped].
  destruct (Str.contains "_framed" _); [reflexivity |].
  destruct (Str.contains "background" _); reflexivity.
Qed.

Lemma submitted_spec (file : Path.t) :
  submitted file = false
  ↔ Str.contains "_framed" (Path.name file) = true
    ∨ Str.contains "background" (str_lower (Path.name file)) = true.
Proof.
  unfold submitted.
  destruct (Str.contains "_framed" _), (Str.contains "background" _); simpl; intuition congruence.
Qed.

(** C2, as the code has it: the loop over the PNG files of a language
    directory frames exactly the files it does not skip, in their
    order, and it skips a file exactly when its name contains "_framed"
    or its name in lower case contains "background". *)
Theorem process_files_frames_the_rest (language : string) (files : list Path.t)
    (counts : nat * nat) (w : World) :
  for_each files (process_file language) counts w
  = for_each (List.filter submitted files) (attempt_frame language) counts w
  ∧ ∀ file : Path.t,
      submitted file = false
      ↔ Str.contains "_framed" (Path.name file) = true
        ∨ Str.contains "background" (str_lower (Path.name file)) = true.
Proof.
  split; [| exact submitted_spec].
  revert counts w. induction files as [|file files IH]; intros counts w; [reflexivity |].
  rewrite for_each_cons, process_file_eq. cbn [List.filter].
  destruct (submitted file).
  - rewrite for_each_cons. unfold mbind, M_bind.
    destruct (attempt_frame language file counts w) as [[counts'|e] w']; [apply IH | reflexivity].
  - apply IH.
Qed.

(** *** What a run prints *)

Lemma frame_screenshot_stdout (input_path output_path language : string)
    (w w' : World) (r : result bool) :
  frame_screenshot input_path output_path language w = (r, w') → stdout w' = stdout w.
Proof.
  unfold frame_screenshot. rewrite theme_hex, get_title_for_screenshot_eq.
  unfold mbind at 1 2 3 4. unfold M_bind, lift, open. rewrite theme_rgb.
  destruct (Image_open (fs w) input_path) as [screenshot|e]; [| by intros [= _ <-]].
  destruct (Image_size screenshot) as [ss_width ss_height].
  destruct (get_font_run FONT_SIZE w) as [font Hfont].
  destruct (Str.truthy _).
  - rewrite (bind_bind_returns _ _ _ _ _ _ Hfont).
    destruct (ImageDraw_textbbox font _) as [[[x0 y0] x1] y1].
    unfold mbind, M_bind, mret, M_ret, save.
    destruct (Image_save _ _ _ _) as [[[]|e] fs']; by intros [= _ <-].
  - unfold mbind, M_bind, mret, M_ret, save.
    destruct (Image_save _ _ _ _) as [[[]|e] fs']; by intros [= _ <-].
Qed.

Lemma count_lines_app (mark : string) (xs ys : list string) :
  count_lines mark (xs ++ ys)%list = (count_lines mark xs + count_lines mark ys)%nat.
Proof. unfold count_lines. rewrite List.filter_app, length_app. reflexivity. Qed.

Lemma logged_refl (counts : nat * nat) (w : World) : logged counts counts w w.
Proof.
  exists []. rewrite app_nil_r. unfold count_lines. simpl. split; [done | lia].
Qed.

Lemma logged_trans (c1 c2 c3 : nat * nat) (w1 w2 w3 : World) :
  logged c1 c2 w1 w2 → logged c2 c3 w2 w3 → logged c1 c3 w1 w3.
Proof.
  intros (new1 & Hout1 & Hp1 & Hs1) (new2 & Hout2 & Hp2 & Hs2).
  exists (new1 ++ new2)%list. rewrite !count_lines_app, Hout2, Hout1, app_assoc.
  split; [done | lia].
Qed.

Lemma print_encoded_taken (line : string) (w : World) :
  stdout_error (stdout w) line = None →
  print_encoded line w = (Return tt, {| fs := fs w; stdout := stdout w ++ [line] |}).
Proof. intros Hok. unfold print_encoded. rewrite Hok. reflexivity. Qed.

Lemma print_encoded_refused (line : string) (w : World) (e : Exception) :
  stdout_error (stdout w) line = Some e → print_encoded line w = (Raise e, w).
Proof. intros Hno. unfold print_encoded. rewrite Hno. reflexivity. Qed.

(** The handler of the try statement: it prints the cross line and
    counts the file as skipped, unless stdout refuses the line. *)
Lemma handler_run (file : Path.t) (processed skipped : nat) (e : Exception) (w1 : World) :
  (print_encoded ("  ✗ " ++ Path.name file ++ ": " ++ exc_str e);;
   mret (processed, skipped + 1)%nat) w1
  = match stdout_error (stdout w1) ("  ✗ " ++ Path.name file ++ ": " ++ exc_str e) with
    | None =>
        (Return (processed, S skipped),
         {| fs := fs w1;
            stdout := stdout w1 ++ ["  ✗ " ++ Path.name file ++ ": " ++ exc_str e] |})
    | Some e' => (Raise e', w1)
    end.
Proof.
  unfold mbind, M_bind, print_encoded.
  destruct (stdout_error _ _); [reflexivity |].
  unfold print, mret, M_ret. rewrite Nat.add_1_r. reflexivity.
Qed.

(** The try statement when framing raises. *)
Lemma attempt_frame_raised (language : string) (file : Path.t) (processed skipped : nat)
    (w w1 : World) (e : Exception) :
  frame_screenshot (Path.to_str file)
    (Path.to_str (Path.joinpath (Path.parent file) (Path.stem file ++ "_framed.png")))
    language w = (Raise e, w1) →
  attempt_frame language file (processed, skipped) w
  = match stdout_error (stdout w) ("  ✗ " ++ Path.name file ++ ": " ++ exc_str e) with
    | None =>
        (Return (processed, S skipped),
         {| fs := fs w1;
            stdout := stdout w ++ ["  ✗ " ++ Path.name file ++ ": " ++ exc_str e] |})
    | Some e' => (Raise e', w1)
    end.
Proof.
  intros Hframe. pose proof (frame_screenshot_stdout _ _ _ _ _ _ Hframe) as Hout.
  unfold attempt_frame, try_except.
  rewrite (bind_raises _ _ _ _ _ Hframe), handler_run, Hout. reflexivity.
Qed.

(** The try statement when framing returns: the check line is printed
    inside the try, so a stdout that refuses it sends the file to the
    handler. *)
Lemma attempt_frame_returned (language : string) (file : Path.t) (processed skipped : nat)
    (w w1 : World) (b : bool) :
  frame_screenshot (Path.to_str file)
    (Path.to_str (Path.joinpath (Path.parent file) (Path.stem file ++ "_framed.png")))
    language w = (Return b, w1) →
  attempt_frame language file (processed, skipped) w
  = match stdout_error (stdout w) ("  ✓ " ++ Path.name file) with
    | None =>
        (Return (S processed, skipped),
         {| fs := fs w1; stdout := stdout w ++ ["  ✓ " ++ Path.name file] |})
    | Some e =>
        match stdout_error (stdout w) ("  ✗ " ++ Path.name file ++ ": " ++ exc_str e) with
        | None =>
            (Return (processed, S skipped),
             {| fs := fs w1;
                stdout := stdout w ++ ["  ✗ " ++ Path.name file ++ ": " ++ exc_str e] |})
        | Some e' => (Raise e', w1)
        end
    end.
Proof.
  intros Hframe. pose proof (frame_screenshot_stdout _ _ _ _ _ _ Hframe) as Hout.
  unfold attempt_frame, try_except.
  rewrite (bind_returns _ _ _ _ _ Hframe).
  unfold mbind at 1. unfold M_bind at 1. unfold print_encoded at 1. rewrite Hout.
  destruct (stdout_error (stdout w) ("  ✓ " ++ Path.name file)) as [e|].
  - rewrite handler_run, Hout. reflexivity.
  - unfold print, mbind, M_bind, mret, M_ret. rewrite Hout, Nat.add_1_r. reflexivity.
Qed.

(** What the try statement can do to the counters and to stdout. *)
Lemma attempt_frame_outcome (language : string) (file : Path.t) (processed skipped : nat)
    (w w' : World) (r : result (nat * nat)) :
  attempt_frame language file (processed, skipped) w = (r, w') →
  (∃ e, r = Raise e ∧ stdout w' = stdout w)
  ∨ (r = Return (S processed, skipped)
     ∧ stdout w' = (stdout w ++ [("  ✓ " ++ Path.name file)%string])%list)
  ∨ (∃ e, r = Return (processed, S skipped)
          ∧ stdout w'
            = (stdout w ++ [("  ✗ " ++ Path.name file ++ ": " ++ exc_str e)%string])%list).
Proof.
  destruct (frame_screenshot (Path.to_str file)
              (Path.to_str (Path.joinpath (Path.parent file) (Path.stem file ++ "_framed.png")))
              language w) as [[b|e] w1] eqn:Hframe;
    pose proof (frame_screenshot_stdout _ _ _ _ _ _ Hframe) as Hout.
  - rewrite (attempt_frame_returned _ _ _ _ _ _ _ Hframe).
    destruct (stdout_error (stdout w) ("  ✓ " ++ Path.name file)) as [e|].
    + destruct (stdout_error (stdout w) _) as [e'|]; intros [= <- <-].
      * left. by exists e'.
      * right. right. by exists e.
    + intros [= <- <-]. right. by left.
  - rewrite (attempt_frame_raised _ _ _ _ _ _ _ Hframe).
    destruct (stdout_error (stdout w) _) as [e'|]; intros [= <- <-].
    + left. by exists e'.
    + right. right. by exists e.
Qed.

Lemma attempt_frame_logged (language : string) (file : Path.t) (counts counts' : nat * nat)
    (w w' : World) :
  attempt_frame language file counts w = (Return counts', w') →
  logged counts counts' w w'.
Proof.
  destruct counts as [processed skipped]. intros Hrun.
  destruct (attempt_frame_outcome _ _ _ _ _ _ _ Hrun)
    as [(e & [=] & _) | [([= ->] & Hout) | (e & [= ->] & Hout)]];
    eexists [_]; (split; [exact Hout |]); unfold count_lines; cbn [List.filter fst snd].
  - replace (Str.startswith "  ✓ " _) with true by reflexivity.
    replace (Str.startswith "  ✗ " _) with false by reflexivity.
    simpl. lia.
  - replace (Str.startswith "  ✓ " _) with false by reflexivity.
    replace (Str.startswith "  ✗ " _) with true by reflexivity.
    simpl. lia.
Qed.

Lemma attempt_frame_returns (language : string) (file : Path.t) (counts : nat * nat)
    (w : World) :
  stdout_takes_all →
  ∃ counts' w', attempt_frame language file counts w = (Return counts', w').
Proof.
  intros Hall. destruct counts as [processed skipped].
  destruct (frame_screenshot (Path.to_str file)
              (Path.to_str (Path.joinpath (Path.parent file) (Path.stem file ++ "_framed.png")))
              language w) as [[b|e] w1] eqn:Hframe.
  - rewrite (attempt_frame_returned _ _ _ _ _ _ _ Hframe), Hall. by eexists _, _.
  - rewrite (attempt_frame_raised _ _ _ _ _ _ _ Hframe), Hall. by eexists _, _.
Qed.

Lemma process_file_logged (language : string) (file : Path.t) (counts counts' : nat * nat)
    (w w' : World) :
  process_file language file counts w = (Return counts', w') →
  logged counts counts' w w'.
Proof.
  rewrite process_file_eq. destruct (submitted file).
  - apply attempt_frame_logged.
  - intros [= <- <-]. apply logged_refl.
Qed.

Lemma process_files_logged (language : string) (files : list Path.t)
    (counts counts' : nat * nat) (w w' : World) :
  for_each files (process_file language) counts w = (Return counts', w') →
  logged counts counts' w w'.
Proof.
  revert counts w. induction files as [|file files IH]; intros counts w.
  - intros [= <- <-]. apply logged_refl.
  - rewrite for_each_cons. unfold mbind, M_bind.
    destruct (process_file language file counts w) as [[c1|e] w1] eqn:Hfile; [| discriminate].
    intros Hrest. apply process_file_logged in Hfile. apply IH in Hrest.
    exact (logged_trans _ _ _ _ _ _ Hfile Hrest).
Qed.

(** On a stdout that takes every line the loop over the files of a
    language directory never raises. *)
Lemma process_files_return (language : string) (files : list Path.t)
    (counts : nat * nat) (w : World) :
  stdout_takes_all →
  ∃ counts' w', for_each files (process_file language) counts w = (Return counts', w').
Proof.
  intros Hall. revert counts w. induction files as [|file files IH]; intros counts w.
  - by exists counts, w.
  - assert (Hfile : ∃ c1 w1, process_file language file counts w = (Return c1, w1)).
    { rewrite process_file_eq. destruct (submitted file).
      - by apply attempt_frame_returns.
      - by exists counts, w. }
    destruct Hfile as (c1 & w1 & Hfile). destruct (IH c1 w1) as (c2 & w2 & Hrest).
    exists c2, w2. rewrite for_each_cons, (bind_returns _ _ _ _ _ Hfile). exact Hrest.
Qed.

Lemma process_language_logged (lang_dir : Path.t) (counts counts' : nat * nat)
    (w w' : World) :
  process_language lang_dir counts w = (Return counts', w') →
  logged counts counts' w w'.
Proof.
  unfold process_language, read. unfold mbind at 1. unfold M_bind at 1.
  destruct (path_is_dir (fs w) lang_dir); cbn [negb].
  - unfold mbind at 1. unfold M_bind at 1. unfold print_encoded at 1.
    destruct (stdout_error (stdout w) _); [discriminate |]. unfold print at 1.
    unfold mbind at 1. unfold M_bind at 1. unfold glob. cbn [fs stdout].
    destruct (path_glob (fs w) lang_dir "*.png") as [files|e]; [| discriminate].
    set (w0 := {| fs := fs w; stdout := _ |}).
    intros Hfiles. apply process_files_logged in Hfiles.
    apply (logged_trans counts counts counts' w w0 w'); [| exact Hfiles].
    eexists [_]. split; [reflexivity |]. unfold count_lines. cbn [List.filter].
    replace (Str.startswith "  ✓ " _) with false by reflexivity.
    replace (Str.startswith "  ✗ " _) with false by reflexivity.
    simpl. lia.
  - intros [= <- <-]. apply logged_refl.
Qed.

Lemma process_languages_logged (lang_dirs : list Path.t) (counts counts' : nat * nat)
    (w w' : World) :
  for_each lang_dirs process_language counts w = (Return counts', w') →
  logged counts counts' w w'.
Proof.
  revert counts w. induction lang_dirs as [|lang_dir lang_dirs IH]; intros counts w.
  - intros [= <- <-]. apply logged_refl.
  - rewrite for_each_cons. unfold mbind, M_bind.
    destruct (process_language lang_dir counts w) as [[c1|e] w1] eqn:Hdir; [| discriminate].
    intros Hrest. apply process_language_logged in Hdir. apply IH in Hrest.
    exact (logged_trans _ _ _ _ _ _ Hdir Hrest).
Qed.

(** C4, as the code has it: when framing a file raises [e] and stdout
    takes the cross line, the loop catches [e], prints the file name
    and the text of [e], adds one to the skipped count, leaves the
    processed count as it is, and goes on with the remaining files; on
    a stdout that takes every line the loop over the files of a
    directory never raises.  A run that returns True ends with a line
    that reports both counts: as many processed as lines with the check
    mark were printed, as many skipped as lines with the cross. *)
Theorem process_screenshots_catches_and_counts :
  (∀ (language : string) (file : Path.t) (rest : list Path.t) (processed skipped : nat)
     (w w1 : World) (e : Exception),
     Str.contains "_framed" (Path.name file) = false →
     Str.contains "background" (str_lower (Path.name file)) = false →
     frame_screenshot (Path.to_str file)
       (Path.to_str (Path.joinpath (Path.parent file) (Path.stem file ++ "_framed.png")))
       language w = (Raise e, w1) →
     stdout_error (stdout w) ("  ✗ " ++ Path.name file ++ ": " ++ exc_str e) = None →
     for_each (file :: rest) (process_file language) (processed, skipped) w
     = for_each rest (process_file language) (processed, S skipped)
         {| fs := fs w1;
            stdout := stdout w ++ ["  ✗ " ++ Path.name file ++ ": " ++ exc_str e] |})
  ∧ (stdout_takes_all →
     ∀ (language : string) (files : list Path.t) (counts : nat * nat) (w : World),
       ∃ counts' w', for_each files (process_file language) counts w = (Return counts', w'))
  ∧ (∀ (screenshots_dir : string) (w w' : World),
       process_screenshots screenshots_dir w = (Return true, w') →
       ∃ new : list string,
         stdout w'
         = (stdout w ++ new
            ++ [done_line (count_lines "  ✓ " new) (count_lines "  ✗ " new)])%list).
Proof.
  split; [| split].
  - intros language file rest processed skipped w w1 e Hframed Hbackground Hraise Hline.
    rewrite for_each_cons, process_file_eq. unfold submitted.
    rewrite Hframed, Hbackground. cbn [negb andb].
    pose proof (attempt_frame_raised language file processed skipped w w1 e Hraise) as Hrun.
    rewrite Hline in Hrun.
    exact (bind_returns _ _ _ _ _ Hrun).
  - intros Hall language files counts w. by apply process_files_return.
  - intros screenshots_dir w w'. unfold process_screenshots, read.
    unfold mbind at 1. unfold M_bind at 1.
    destruct (path_exists (fs w) _); cbn [negb]; [| intros [=]].
    unfold mbind at 1. unfold M_bind at 1. unfold iterdir.
    destruct (path_iterdir (fs w) _) as [lang_dirs|e]; [| discriminate].
    unfold mbind at 1. unfold M_bind at 1.
    destruct (for_each lang_dirs process_language (0, 0)%nat w)
      as [[[processed skipped]|e] w1] eqn:Hloop; [| discriminate].
    apply process_languages_logged in Hloop.
    destruct Hloop as (new & Hout & Hp & Hs). cbn [fst snd] in Hp, Hs.
    unfold mbind, M_bind, print, mret, M_ret. intros [= <-]. cbn [stdout].
    exists new. rewrite Hout, <- app_assoc. unfold done_line. subst. reflexivity.
Qed.

End Batch.

(** ** The script on the small platform *)

(** An equation between closed terms, checked by evaluating both sides. *)
Ltac by_evaluation :=
  lazymatch goal with |- _ = ?rhs => vm_cast_no_check (eq_refl rhs) end.

Local Abbreviation light_png := "/shots/en-US/iPhone 17 Pro Max-01_NearbyTab.png".
Local Abbreviation light_framed := "/shots/en-US/iPhone 17 Pro Max-01_NearbyTab_framed.png".
Local Abbreviation dark_png := "/shots/en-US/iPhone 17 Pro Max-01_NearbyTab_Dark.png".
Local Abbreviation dark_framed := "/shots/en-US/iPhone 17 Pro Max-01_NearbyTab_Dark_framed.png".
Local Abbreviation broken_png := "/shots/en-US/broken.png".
Local Abbreviation background_png := "/shots/en-US/Background.png".
Local Abbreviation background_framed := "/shots/en-US/Background_framed.png".

Example demo_run :
  process_screenshots (Pl := Demo.platform) "/shots" Demo.start
  = (Return true,
     @mkWorld Demo.platform
         (<[ light_framed :=
               Demo.ImageNode
                 (Pasted
                    (DrawText (New "RGB" (1520, 3200)%Z (0, 122, 255)%Z)
                       (300, 80)%Z "Discover Nearby Devices" "white" DefaultFont)
                    (Decoded (1320, 2868)%Z 1) (100, 232)%Z) ]>
          (<[ dark_framed :=
               Demo.ImageNode
                 (Pasted
                    (DrawText (New "RGB" (1520, 3200)%Z (28, 28, 30)%Z)
                       (300, 80)%Z "Discover Nearby Devices" "white" DefaultFont)
                    (Decoded (1320, 2868)%Z 2) (100, 232)%Z) ]> Demo.shots))
          [ nl ++ "Processing en-US...";
            "  ✓ iPhone 17 Pro Max-01_NearbyTab.png";
            "  ✓ iPhone 17 Pro Max-01_NearbyTab_Dark.png";
            "  ✗ broken.png: cannot identify image file /shots/en-US/broken.png";
            nl ++ "Done! Processed: 2, Skipped: 1" ]).
Proof. by_evaluation. Qed.

Lemma frame_screenshot_output_width_witness :
  Image_open (fs Demo.start) light_png = Return (Decoded (1320, 2868)%Z 1)
  ∧ ∃ output,
      frame_screenshot light_png light_framed "en-US" Demo.start
      = (save output light_framed "PNG";; mret true) Demo.start
      ∧ fst (Image_size output) = (fst (1320, 2868) + 2 * PADDING)%Z
      ∧ PADDING = 100%Z.
Proof.
  assert (Hopen : Image_open (fs Demo.start) light_png = Return (Decoded (1320, 2868)%Z 1))
    by by_evaluation.
  split; [exact Hopen |].
  exact (frame_screenshot_output_width light_png light_framed "en-US" Demo.start _ Hopen).
Defined.

Lemma frame_screenshot_background_witness :
  Image_open (fs Demo.start) dark_png = Return (Decoded (1320, 2868)%Z 2)
  ∧ Str.contains "_Dark" dark_png = true
  ∧ ∃ output,
      frame_screenshot dark_png dark_framed "en-US" Demo.start
      = (save output dark_framed "PNG";; mret true) Demo.start
      ∧ Image_background output = Some (28, 28, 30)%Z.
Proof.
  assert (Hopen : Image_open (fs Demo.start) dark_png = Return (Decoded (1320, 2868)%Z 2))
    by by_evaluation.
  split; [exact Hopen |]. split; [reflexivity |].
  destruct (frame_screenshot_background dark_png dark_framed "en-US" Demo.start _ Hopen)
    as (output & Hrun & Hbg & _).
  exists output. split; [exact Hrun | exact Hbg].
Defined.

Lemma frame_screenshot_title_centered_witness :
  ∃ output,
    frame_screenshot light_png light_framed "en-US" Demo.start
    = (save output light_framed "PNG";; mret true) Demo.start
    ∧ Image_texts output
      = [((fst (Image_size output) - (920 - 0)) `div` 2, TITLE_PADDING,
          "Discover Nearby Devices", "white", DefaultFont)%Z].
Proof.
  refine (frame_screenshot_title_centered (Pl := Demo.platform)
            light_png light_framed "en-US" Demo.start (Decoded (1320, 2868)%Z 1)
            "Discover Nearby Devices" DefaultFont _ _ _ _).
  - by_evaluation.
  - by_evaluation.
  - discriminate.
  - by_evaluation.
Defined.

Lemma frame_screenshot_title_band_witness :
  get_title_for_screenshot background_png "en-US" = Return ""
  ∧ get_title_for_screenshot light_png "en-US" = Return "Discover Nearby Devices"
  ∧ (∃ output,
       frame_screenshot light_png light_framed "en-US" Demo.start
       = (save output light_framed "PNG";; mret true) Demo.start
       ∧ Image_pastes output = [(Decoded (1320, 2868)%Z 1, (100, 232)%Z)]
       ∧ snd (Image_size output) = 3200%Z)
  ∧ (∃ output,
       frame_screenshot background_png background_framed "en-US" Demo.start
       = (save output background_framed "PNG";; mret true) Demo.start
       ∧ Image_texts output = []
       ∧ Image_pastes output = [(Decoded (1320, 2868)%Z 3, (100, 0)%Z)]
       ∧ snd (Image_size output) = 2968%Z).
Proof.
  assert (Hempty : get_title_for_screenshot background_png "en-US" = Return "")
    by by_evaluation.
  assert (Htitle : get_title_for_screenshot light_png "en-US" = Return "Discover Nearby Devices")
    by by_evaluation.
  assert (Hlight : Image_open (fs Demo.start) light_png = Return (Decoded (1320, 2868)%Z 1))
    by by_evaluation.
  assert (Hback : Image_open (fs Demo.start) background_png = Return (Decoded (1320, 2868)%Z 3))
    by by_evaluation.
  split; [exact Hempty |]. split; [exact Htitle |]. split.
  - destruct (frame_screenshot_title_band (Pl := Demo.platform)
                light_png light_framed "en-US" Demo.start _ _ Hlight Htitle)
      as (output & Hrun & _ & Hfull).
    destruct (Hfull ltac:(discriminate)) as [Hpaste Hheight].
    exists output. split; [exact Hrun |]. split; [exact Hpaste | exact Hheight].
  - destruct (frame_screenshot_title_band (Pl := Demo.platform)
                background_png background_framed "en-US" Demo.start _ _ Hback Hempty)
      as (output & Hrun & Hnone & _).
    destruct (Hnone eq_refl) as (Htexts & Hpaste & Hheight).
    exists output. split; [exact Hrun |].
    split; [exact Htexts |]. split; [exact Hpaste | exact Hheight].
Defined.

(** C2, as the claim has it, fails on a name with a capital letter:
    "Background.png" contains neither "_framed" nor "background", and
    the loop skips it all the same: nothing is printed, nothing is
    saved and no counter moves, though the file is an image that
    framing would process. *)
Lemma background_capital_skipped_counterexample :
  Path.name (Path.of_str background_png) = "Background.png"
  ∧ Str.contains "_framed" "Background.png" = false
  ∧ Str.contains "background" "Background.png" = false
  ∧ process_file (Pl := Demo.platform) "en-US" (Path.of_str background_png) (0, 0)%nat Demo.start
    = (Return (0, 0)%nat, Demo.start)
  ∧ fst (attempt_frame (Pl := Demo.platform) "en-US" (Path.of_str background_png)
           (0, 0)%nat Demo.start)
    = Return (1, 0)%nat.
Proof. repeat split; by_evaluation. Qed.

(** C4, as the claim has it, fails on a stdout that cannot encode the
    cross: framing [broken.png] raises, the handler's own print raises
    UnicodeEncodeError, and that exception leaves the loop: the file is
    not logged, no counter moves and the file after it is never
    framed. *)
Lemma cross_line_refused_counterexample :
  frame_screenshot (Pl := Demo.ascii_platform) broken_png "/shots/en-US/broken_framed.png"
    "en-US" Demo.ascii_start
  = (Raise (Exc "UnidentifiedImageError" "cannot identify image file /shots/en-US/broken.png"),
     Demo.ascii_start)
  ∧ for_each (Pl := Demo.ascii_platform)
      [Path.of_str broken_png; Path.of_str light_png] (process_file "en-US") (0, 0)%nat
      Demo.ascii_start
    = (Raise (Exc "UnicodeEncodeError" "'ascii' codec can't encode character"),
       Demo.ascii_start)
  ∧ fst (process_screenshots (Pl := Demo.ascii_platform) "/shots" Demo.ascii_start)
    = Raise (Exc "UnicodeEncodeError" "'ascii' codec can't encode character").
Proof. repeat split; by_evaluation. Qed.

Lemma process_screenshots_catches_and_counts_witness :
  (let file := Path.of_str broken_png in
   let e := Exc "UnidentifiedImageError" "cannot identify image file /shots/en-US/broken.png" in
   for_each (Pl := Demo.platform)
     (file :: [Path.of_str light_png]) (process_file "en-US") (0, 0)%nat Demo.start
   = for_each [Path.of_str light_png] (process_file "en-US") (0, 1)%nat
       (@mkWorld Demo.platform (fs Demo.start)
          (stdout Demo.start
           ++ ["  ✗ " ++ Path.name file ++ ": " ++ exc_str (Platform := Demo.platform) e])))
  ∧ (∃ counts' w',
       for_each (Pl := Demo.platform)
         [Path.of_str broken_png; Path.of_str light_png] (process_file "en-US") (0, 0)%nat
         Demo.start
       = (Return counts', w'))
  ∧ ∃ new : list string,
      stdout (snd (process_screenshots (Pl := Demo.platform) "/shots" Demo.start))
      = (stdout Demo.start ++ new
         ++ [done_line (count_lines "  ✓ " new) (count_lines "  ✗ " new)])%list.
Proof.
  split; [| split].
  - refine (proj1 (process_screenshots_catches_and_counts (Pl := Demo.platform))
              "en-US" (Path.of_str broken_png) [Path.of_str light_png] 0%nat 0%nat
              Demo.start Demo.start
              (Exc "UnidentifiedImageError" "cannot identify image file /shots/en-US/broken.png")
              _ _ _ _); by_evaluation.
  - refine (proj1 (proj2 (process_screenshots_catches_and_counts (Pl := Demo.platform)))
              _ "en-US" [Path.of_str broken_png; Path.of_str light_png] (0, 0)%nat Demo.start).
    intros printed line. reflexivity.
  - refine (proj2 (proj2 (process_screenshots_catches_and_counts (Pl := Demo.platform)))
              "/shots" Demo.start
              (snd (process_screenshots (Pl := Demo.platform) "/shots" Demo.start)) _).
    by_evaluation.
Defined.

(** * Further properties *)

(** ** hex_to_rgb *)

Section Hex.

Lemma hex_digit_range (a : ascii) (d : Z) : hex_digit a = Some d → (0 ≤ d ≤ 15)%Z.
Proof.
  unfold hex_digit.
  repeat match goal with
         | |- context [(?x <=? ?y)%Z] => destruct (Z.leb_spec x y)
         end; cbn [andb]; intros [= <-]; lia.
Qed.

Lemma hex_digit_not_hash (a : ascii) (d : Z) : hex_digit a = Some d → Ascii.eqb a "#" = false.
Proof.
  intros Hd. destruct (Ascii.eqb_spec a "#") as [->|]; [discriminate | reflexivity].
Qed.

Lemma int16_two_digits (a b : ascii) (x y : Z) :
  hex_digit a = Some x → hex_digit b = Some y →
  int16 (String a (String b "")) = Return (16 * x + y)%Z.
Proof.
  intros Ha Hb. unfold int16. cbn [hex_value]. rewrite Ha, Hb.
  f_equal. all: lia.
Qed.

Lemma int16_cases (s : string) :
  (∃ v, int16 s = Return v) ∨ int16 s = Raise (Exc "ValueError" s).
Proof.
  unfold int16. destruct s as [|a s]; [by right |].
  destruct (hex_value 0 (String a s)); [left; eauto | by right].
Qed.

Lemma substring_beyond (n m : nat) (s : string) :
  (String.length s ≤ n)%nat → String.substring n m s = "".
Proof.
  revert n. induction s as [|a s IH]; intros n Hn.
  - destruct n, m; reflexivity.
  - cbn [String.length] in Hn. destruct n as [|n]; [lia |].
    cbn [String.substring]. apply IH. lia.
Qed.

(** [s[i:i+2]] is the pair of characters at [i] and [i + 1]. *)
Lemma slice_pair (i : nat) (s : string) (a b : ascii) (t : string) :
  String.length s = i →
  Str.slice i (i + 2) (s ++ String a (String b t)) = String a (String b "").
Proof.
  unfold Str.slice. replace (i + 2 - i)%nat with 2%nat by lia.
  revert i. induction s as [|x s IH]; intros i <-.
  - change ("" ++ ?u) with u. cbn. by destruct t.
  - rewrite append_cons. cbn [String.length String.substring]. by apply IH.
Qed.

(** X1: a colour written as six hexadecimal digits, in either case,
    with or without the leading '#' and whatever follows the sixth
    digit, is read as its three bytes: each component is
    16 * high digit + low digit and lies between 0 and 255. *)
Theorem hex_to_rgb_six_digits (c1 c2 c3 c4 c5 c6 : ascii) (d1 d2 d3 d4 d5 d6 : Z)
    (rest : string) :
  hex_digit c1 = Some d1 → hex_digit c2 = Some d2 → hex_digit c3 = Some d3 →
  hex_digit c4 = Some d4 → hex_digit c5 = Some d5 → hex_digit c6 = Some d6 →
  let digits := String c1 (String c2 (String c3 (String c4 (String c5 (String c6 rest))))) in
  let rgb := (16 * d1 + d2, 16 * d3 + d4, 16 * d5 + d6)%Z in
  hex_to_rgb digits = Return rgb
  ∧ hex_to_rgb ("#" ++ digits) = Return rgb
  ∧ (0 ≤ 16 * d1 + d2 ≤ 255)%Z ∧ (0 ≤ 16 * d3 + d4 ≤ 255)%Z ∧ (0 ≤ 16 * d5 + d6 ≤ 255)%Z.
Proof.
  intros H1 H2 H3 H4 H5 H6 digits rgb.
  assert (Hplain : hex_to_rgb digits = Return rgb).
  { unfold hex_to_rgb, digits. cbn [Str.lstrip]. rewrite (hex_digit_not_hash _ _ H1).
    set (s := String c1 _).
    assert (Hr : Str.slice 0 2 s = String c1 (String c2 ""))
      by exact (slice_pair 0 "" c1 c2 _ eq_refl).
    assert (Hg : Str.slice 2 4 s = String c3 (String c4 ""))
      by exact (slice_pair 2 (String c1 (String c2 "")) c3 c4 _ eq_refl).
    assert (Hb : Str.slice 4 6 s = String c5 (String c6 ""))
      by exact (slice_pair 4 (String c1 (String c2 (String c3 (String c4 "")))) c5 c6 rest eq_refl).
    rewrite Hr, Hg, Hb.
    rewrite (int16_two_digits _ _ _ _ H1 H2), (int16_two_digits _ _ _ _ H3 H4),
      (int16_two_digits _ _ _ _ H5 H6). reflexivity. }
  split; [exact Hplain |]. split.
  - rewrite <- Hplain. unfold hex_to_rgb. reflexivity.
  - apply hex_digit_range in H1, H2, H3, H4, H5, H6. lia.
Qed.

(** X2: a colour with at most four characters after the leading '#'s,
    such as the short form "#FFF", is not read: the function raises
    ValueError, since the third pair of digits is empty. *)
Theorem hex_to_rgb_short_raises (hex_color : string) :
  (String.length (Str.lstrip "#" hex_color) ≤ 4)%nat →
  ∃ arg, hex_to_rgb hex_color = Raise (Exc "ValueError" arg).
Proof.
  intros Hlen. unfold hex_to_rgb.
  assert (Hlast : Str.slice 4 6 (Str.lstrip "#" hex_color) = "")
    by (apply substring_beyond; exact Hlen).
  rewrite Hlast.
  destruct (int16_cases (Str.slice 0 2 (Str.lstrip "#" hex_color))) as [[r ->] | ->];
    [| eexists; reflexivity].
  destruct (int16_cases (Str.slice 2 4 (Str.lstrip "#" hex_color))) as [[g ->] | ->];
    eexists; reflexivity.
Qed.

End Hex.

(** ** More on get_title_for_screenshot *)

Section Titles.

Local Abbreviation free c s := (Str.contains (String c "") s = false).

Lemma contains_app_l (sub s t : string) :
  Str.contains sub s = true → Str.contains sub (s ++ t) = true.
Proof.
  induction s as [|a s IH].
  - cbn [Str.contains]. destruct sub; [| discriminate]. intros _.
    change ("" ++ t) with t. by destruct t.
  - rewrite append_cons. cbn [Str.contains]. intros [Hp|Hs]%orb_true_iff.
    + rewrite <- append_cons, (startswith_app _ _ _ Hp). reflexivity.
    + rewrite (IH Hs). apply orb_true_r.
Qed.

Lemma contains_app_r (sub s t : string) :
  Str.contains sub t = true → Str.contains sub (s ++ t) = true.
Proof.
  intros Ht. induction s as [|a s IH]; [exact Ht |].
  rewrite append_cons. cbn [Str.contains]. rewrite IH. apply orb_true_r.
Qed.

(** The stem and the name of a path are those of its last component. *)
Lemma name_of_str_single (n : string) :
  free "/" n → Path.component n = true → Path.name (Path.of_str n) = n.
Proof.
  intros Hfree Hcomp. unfold Path.name, Path.of_str. cbn [Path.parts].
  rewrite (split_free _ _ Hfree). cbn [List.filter]. rewrite Hcomp. reflexivity.
Qed.

Lemma stem_of_name (p q : Path.t) : Path.name p = Path.name q → Path.stem p = Path.stem q.
Proof. unfold Path.stem. by intros ->. Qed.

Lemma key_part_of_bare_name (dir key : string) :
  free "/" key → free "-" key → key ≠ "" →
  key_part (dir ++ "/" ++ key ++ ".png") = key.
Proof.
  intros Hslash Hdash Hne. unfold key_part.
  rewrite (stem_of_str_png dir key Hslash Hne), (split_free _ _ Hdash).
  reflexivity.
Qed.

Lemma screenshot_keys_plain :
  set_Forall (λ key,
    Str.contains "/" key = false ∧ Str.contains "-" key = false
    ∧ Str.replace "_Dark" "" key = key) screenshot_keys.
Proof. apply (bool_decide_unpack _). vm_compute. exact I. Qed.

Lemma TITLES_not_empty :
  map_Forall (λ (_ : string) (table : gmap string string),
    map_Forall (λ (_ : string) (title : string), title ≠ "") table) TITLES.
Proof. apply (bool_decide_unpack _). vm_compute. exact I. Qed.

Lemma TITLES_keys : map_Forall (λ (_ : string) (table : gmap string string),
    dom table = screenshot_keys) TITLES.
Proof. apply (bool_decide_unpack _). vm_compute. exact I. Qed.

(** X3: for a file named device-KEY.png or device-KEY_Dark.png in any
    directory, KEY one of the thirteen keys and the language one of
    [TITLES], the function returns the entry of KEY in the table of
    that language, which is not empty.  The device name may hold
    anything but a slash, hyphens included. *)
Theorem get_title_of_screenshot_name (dir device key language : string)
    (table : gmap string string) :
  Str.contains "/" device = false →
  key ∈ screenshot_keys →
  TITLES !! language = Some table →
  ∃ title,
    table !! key = Some title ∧ title ≠ ""
    ∧ get_title_for_screenshot (dir ++ "/" ++ device ++ "-" ++ key ++ ".png") language
      = Return title
    ∧ get_title_for_screenshot (dir ++ "/" ++ device ++ "-" ++ key ++ "_Dark.png") language
      = Return title.
Proof.
  intros Hdev Hkey Hlang.
  destruct (screenshot_keys_plain key Hkey) as (Hslash & Hdash & Hplain).
  assert (Hin : key ∈ dom table) by (by rewrite (TITLES_keys _ _ Hlang)).
  apply elem_of_dom in Hin as [title Htitle].
  exists title. split; [exact Htitle |].
  split; [exact (TITLES_not_empty _ _ Hlang _ _ Htitle) |].
  assert (Hlight : get_title_for_screenshot (dir ++ "/" ++ device ++ "-" ++ key ++ ".png") language
                   = Return title).
  { rewrite get_title_for_screenshot_eq. unfold screenshot_key.
    rewrite (key_part_of_name dir device key Hdev Hslash Hdash), Hplain.
    unfold lang_titles, dict_get. rewrite Hlang.
    change (default en_US_titles (Some table)) with table. rewrite Htitle. reflexivity. }
  split; [exact Hlight |].
  rewrite <- Hlight, !get_title_for_screenshot_eq. unfold screenshot_key.
  rewrite (key_part_of_name dir device key Hdev Hslash Hdash).
  change "_Dark.png" with ("_Dark" ++ ".png"). rewrite <- (append_assoc key).
  rewrite key_part_of_name, replace_dark_suffix; [reflexivity | exact Hdev | |];
    apply free_app; split; done.
Qed.

(** X4: the device prefix is optional and the directory is not read:
    device-KEY.png in one directory and KEY.png in another get the same
    title. *)
Theorem get_title_ignores_device_and_directory
    (dir dir' device key language : string) :
  Str.contains "/" device = false →
  Str.contains "/" key = false →
  Str.contains "-" key = false →
  key ≠ "" →
  get_title_for_screenshot (dir ++ "/" ++ device ++ "-" ++ key ++ ".png") language
  = get_title_for_screenshot (dir' ++ "/" ++ key ++ ".png") language.
Proof.
  intros Hdev Hslash Hdash Hne. rewrite !get_title_for_screenshot_eq. unfold screenshot_key.
  rewrite (key_part_of_name dir device key Hdev Hslash Hdash),
    (key_part_of_bare_name dir' key Hslash Hdash Hne). reflexivity.
Qed.

Lemma title_of_last_component (dir name language : string) :
  free "/" name → Path.component name = true →
  get_title_for_screenshot (dir ++ "/" ++ name) language
  = get_title_for_screenshot name language.
Proof.
  intros Hfree Hcomp. unfold get_title_for_screenshot.
  rewrite (stem_of_name (Path.of_str (dir ++ "/" ++ name)) (Path.of_str name)); [reflexivity |].
  rewrite (name_of_str_app dir name Hfree Hcomp), (name_of_str_single name Hfree Hcomp).
  reflexivity.
Qed.

(** X5: only the last component of the path is read: a file gets the
    title of its name alone, whatever the directory. *)
Theorem get_title_reads_file_name_only (dir name language : string) :
  Str.contains "/" name = false →
  Path.component name = true →
  get_title_for_screenshot (dir ++ "/" ++ name) language
  = get_title_for_screenshot name language.
Proof. apply title_of_last_component. Qed.

End Titles.

(** ** Paths *)

Section Paths.

Local Abbreviation free c s := (Str.contains (String c "") s = false).

Lemma split_parts_free (sep : ascii) (s : string) : Forall (λ x, free sep x) (Str.split sep s).
Proof.
  induction s as [|a s IH]; [by repeat constructor |].
  cbn [Str.split]. destruct (Ascii.eqb_spec a sep) as [->|Hne].
  - constructor; [reflexivity | exact IH].
  - destruct (Str.split sep s) as [|p ps]; [by repeat constructor; apply free_cons |].
    inversion IH as [|? ? Hp Hps]; subst. constructor; [by apply free_cons | exact Hps].
Qed.

Lemma of_str_ok (s : string) : path_ok (Path.of_str s).
Proof.
  unfold path_ok, Path.of_str. cbn [Path.root Path.parts]. split.
  { unfold Path.root_of. destruct (Str.startswith "/" s); [| by left].
    destruct (_ =? 2)%nat; auto. }
  apply List.Forall_forall.
  intros x [Hx Hcomp]%List.filter_In. split; [exact Hcomp |].
  exact (proj1 (List.Forall_forall _ _) (split_parts_free "/" s) x Hx).
Qed.

Lemma Forall_removelast {A} (P : A → Prop) (l : list A) :
  Forall P l → Forall P (List.removelast l).
Proof.
  induction 1 as [|x l Hx Hl IH]; [constructor |].
  cbn [List.removelast]. destruct l; [constructor | by constructor].
Qed.

Lemma last_Forall {A} (P : A → Prop) (l : list A) (d : A) :
  Forall P l → P d → P (List.last l d).
Proof.
  intros Hl Hd. induction Hl as [|x l Hx Hl IH]; [exact Hd |].
  cbn [List.last]. destruct l; [exact Hx | exact IH].
Qed.

Lemma substring_free (c : ascii) (n m : nat) (s : string) :
  free c s → free c (String.substring n m s).
Proof.
  revert n m. induction s as [|a s IH]; intros n m Hs.
  - by destruct n, m.
  - apply free_cons in Hs as [Hne Hs]. destruct n as [|n]; cbn [String.substring].
    + destruct m as [|m]; [reflexivity |]. apply free_cons. split; [exact Hne | by apply IH].
    + by apply IH.
Qed.

Lemma name_free (p : Path.t) : path_ok p → free "/" (Path.name p).
Proof.
  intros Hp. unfold Path.name.
  apply (last_Forall (λ x, free "/" x)); [| reflexivity].
  eapply Forall_impl; [exact (proj2 Hp) |]. by intros x [_ Hx].
Qed.

Lemma stem_free (p : Path.t) : path_ok p → free "/" (Path.stem p).
Proof.
  intros Hp. pose proof (name_free p Hp) as Hname. unfold Path.stem.
  destruct (Str.rfind "." (Path.name p)) as [i|]; [| exact Hname].
  destruct (_ && _); [| exact Hname]. by apply substring_free.
Qed.

Lemma free_startswith (c : ascii) (s : string) :
  free c s → Str.startswith (String c "") s = false.
Proof.
  destruct s as [|a s]; [reflexivity |]. intros [Hne _]%free_cons.
  cbn [Str.startswith]. by destruct (Ascii.eqb_spec c a) as [->|].
Qed.

Lemma component_framed (t : string) : Path.component (t ++ "_framed.png") = true.
Proof.
  unfold Path.component. destruct t as [|a [|b t]].
  - reflexivity.
  - change (String a "" ++ "_framed.png") with (String a "_framed.png").
    cbn [Str.truthy String.eqb andb]. by destruct (Ascii.eqb a ".").
  - rewrite !append_cons. cbn [Str.truthy String.eqb andb]. by destruct (Ascii.eqb a ".").
Qed.

(** [p / name] for a plain name adds it as the last part. *)
Lemma joinpath_plain (p : Path.t) (n : string) :
  free "/" n → Path.component n = true →
  Path.joinpath p n = {| Path.root := Path.root p; Path.parts := (Path.parts p ++ [n])%list |}.
Proof.
  intros Hfree Hcomp. unfold Path.joinpath, Path.of_str, Path.root_of.
  cbn [Path.root Path.parts].
  rewrite (free_startswith _ _ Hfree), (split_free _ _ Hfree).
  cbn [Str.truthy List.filter]. rewrite Hcomp. reflexivity.
Qed.

Lemma framed_path_eq (file : Path.t) :
  path_ok file →
  framed_path file
  = {| Path.root := Path.root file;
       Path.parts := (List.removelast (Path.parts file) ++ [(Path.stem file ++ "_framed.png")%string])%list |}.
Proof.
  intros Hok. unfold framed_path. rewrite joinpath_plain; [reflexivity | | apply component_framed].
  apply free_app. split; [by apply stem_free | reflexivity].
Qed.

Lemma framed_path_ok (file : Path.t) : path_ok file → path_ok (framed_path file).
Proof.
  intros Hok. rewrite (framed_path_eq file Hok). unfold path_ok.
  cbn [Path.root Path.parts]. split; [exact (proj1 Hok) |].
  apply Forall_app. split; [by apply Forall_removelast; exact (proj2 Hok) |].
  constructor; [| constructor]. split; [apply component_framed |].
  apply free_app. split; [by apply stem_free | reflexivity].
Qed.

(** *** Printing and parsing a path *)

Lemma split_join (ps : list string) :
  ps ≠ [] → Forall (λ x, free "/" x) ps → Str.split "/" (Path.join ps) = ps.
Proof.
  induction ps as [|p ps IH]; [done |]. intros _ Hall.
  inversion Hall as [|? ? Hp Hps]; subst.
  destruct ps as [|q ps]; [exact (split_free _ _ Hp) |].
  change (Path.join (p :: q :: ps)) with (p ++ String "/" (Path.join (q :: ps))).
  rewrite split_app_sep, (split_free _ _ Hp), IH; [reflexivity | done | exact Hps].
Qed.

Lemma filter_components (ps : list string) :
  Forall (λ x, Path.component x = true) ps → List.filter Path.component ps = ps.
Proof.
  induction 1 as [|x l Hx Hl IH]; [reflexivity |].
  cbn [List.filter]. by rewrite Hx, IH.
Qed.

Lemma join_head (ps : list string) :
  ps ≠ [] → Forall (λ x, Path.component x = true ∧ free "/" x) ps →
  ∃ a t, Path.join ps = String a t ∧ a ≠ "/"%char.
Proof.
  intros Hne Hall. destruct Hall as [|p ps [Hcomp Hfree] Hps]; [done |].
  destruct p as [|a p]; [discriminate |].
  apply free_cons in Hfree as [Hslash _].
  exists a. destruct ps as [|q ps]; [by exists p |].
  eexists. split; [cbn [Path.join]; apply append_cons | exact Hslash].
Qed.

Lemma join_not_rooted (ps : list string) :
  Forall (λ x, Path.component x = true ∧ free "/" x) ps →
  Str.startswith "/" (Path.join ps) = false.
Proof.
  intros Hall. destruct ps as [|p ps]; [reflexivity |].
  destruct (join_head (p :: ps)) as (a & t & -> & Hne); [done | exact Hall |].
  cbn [Str.startswith]. by destruct (Ascii.eqb_spec "/" a) as [<-|].
Qed.

(** The root read back from a printed path: one slash, or exactly two. *)
Lemma root_of_join (r : string) (ps : list string) :
  r = "" ∨ r = "/" ∨ r = "//" →
  ps ≠ [] → Forall (λ x, Path.component x = true ∧ free "/" x) ps →
  Path.root_of (r ++ Path.join ps) = r.
Proof.
  intros Hr Hne Hall. destruct (join_head ps Hne Hall) as (a & t & -> & Ha).
  assert (Hb : Ascii.eqb a "/" = false) by (by apply Ascii.eqb_neq).
  assert (Hb' : Ascii.eqb "/" a = false) by (by apply Ascii.eqb_neq).
  unfold Path.root_of. destruct Hr as [-> | [-> | ->]].
  - change ("" ++ ?j) with j. cbn [Str.startswith]. by rewrite Hb'.
  - change ("/" ++ ?j) with (String "/" j).
    cbn [Str.startswith Str.lstrip]. rewrite Ascii.eqb_refl, Hb.
    change (String.length (String "/" (String a t))) with (S (String.length (String a t))).
    by replace (S (String.length (String a t)) - String.length (String a t))%nat with 1%nat by lia.
  - change ("//" ++ ?j) with (String "/" (String "/" j)).
    cbn [Str.startswith Str.lstrip]. rewrite !Ascii.eqb_refl, Hb.
    change (String.length (String "/" (String "/" (String a t))))
      with (S (S (String.length (String a t)))).
    by replace (S (S (String.length (String a t))) - String.length (String a t))%nat
      with 2%nat by lia.
Qed.

Lemma of_str_to_str (p : Path.t) : path_ok p → Path.of_str (Path.to_str p) = p.
Proof.
  destruct p as [r ps]. unfold path_ok. cbn [Path.root Path.parts]. intros [Hr Hok].
  assert (Hfree : Forall (λ x, free "/" x) ps)
    by (eapply Forall_impl; [exact Hok |]; by intros x [_ Hx]).
  assert (Hcomp : Forall (λ x, Path.component x = true) ps)
    by (eapply Forall_impl; [exact Hok |]; by intros x [Hx _]).
  destruct ps as [|p ps]; [by destruct Hr as [-> | [-> | ->]] |].
  assert (Hstr : Path.to_str {| Path.root := r; Path.parts := p :: ps |}
                 = r ++ Path.join (p :: ps))
    by (by destruct Hr as [-> | [-> | ->]]).
  rewrite Hstr. unfold Path.of_str.
  rewrite (root_of_join r (p :: ps) Hr) by done. f_equal.
  destruct Hr as [-> | [-> | ->]].
  - change ("" ++ ?j) with j.
    rewrite (split_join (p :: ps)) by done. exact (filter_components (p :: ps) Hcomp).
  - change ("/" ++ ?j) with (String "/" j).
    cbn [Str.split]. rewrite Ascii.eqb_refl.
    rewrite (split_join (p :: ps)) by done.
    cbn [List.filter]. change (Path.component "") with false. cbn iota.
    exact (filter_components (p :: ps) Hcomp).
  - change ("//" ++ ?j) with (String "/" (String "/" j)).
    cbn [Str.split]. rewrite !Ascii.eqb_refl.
    rewrite (split_join (p :: ps)) by done.
    cbn [List.filter]. change (Path.component "") with false. cbn iota.
    exact (filter_components (p :: ps) Hcomp).
Qed.

Lemma append_cancel_r (s1 s2 t : string) : s1 ++ t = s2 ++ t → s1 = s2.
Proof.
  assert (Hlen : ∀ a s, String.length (String a s ++ t) ≠ String.length t).
  { intros a s. rewrite length_app_string. change (String.length (String a s)) with
      (S (String.length s)). lia. }
  revert s2. induction s1 as [|a s1 IH]; intros [|b s2] Heq; [reflexivity | | |].
  - apply (f_equal String.length) in Heq. by apply eq_sym, Hlen in Heq.
  - apply (f_equal String.length) in Heq. by apply Hlen in Heq.
  - rewrite !append_cons in Heq. injection Heq as -> Heq. f_equal. by apply IH.
Qed.

End Paths.

(** ** More on frame_screenshot and get_font *)

Section FramingMore.

Context {Pl : Platform}.

Lemma frame_screenshot_not_opened
    (input_path output_path language : string) (w : World) (e : Exception) :
  Image_open (fs w) input_path = Raise e →
  frame_screenshot input_path output_path language w = (Raise e, w).
Proof.
  intros Hopen. unfold frame_screenshot. rewrite theme_hex.
  unfold mbind at 1 2 3. unfold M_bind, lift, open.
  rewrite theme_rgb, Hopen. reflexivity.
Qed.

(** X6: whatever the outcome, the function prints nothing, never
    returns False (it returns True or raises), and touches the file
    system at most through one save, at the output path and in PNG.
    When [Image.open] raises it raises the same exception and has done
    nothing at all. *)
Theorem frame_screenshot_effects
    (input_path output_path language : string) (w w' : World) (r : result bool) :
  frame_screenshot input_path output_path language w = (r, w') →
  stdout w' = stdout w
  ∧ (r = Return true ∨ ∃ e, r = Raise e)
  ∧ (fs w' = fs w
     ∨ ∃ output, fs w' = snd (Image_save (fs w) output output_path "PNG"))
  ∧ (∀ e, Image_open (fs w) input_path = Raise e → r = Raise e ∧ w' = w).
Proof.
  destruct (Image_open (fs w) input_path) as [screenshot|e] eqn:Hopen.
  - destruct (get_font_run FONT_SIZE w) as [font Hfont].
    pose proof (frame_screenshot_run input_path output_path language w screenshot _ font
                  Hopen (get_title_for_screenshot_eq _ _) Hfont) as Hrun.
    cbv zeta in Hrun.
    destruct (ImageDraw_textbbox font _) as [[[x0 y0] x1] y1].
    rewrite Hrun. unfold mbind, M_bind, mret, M_ret, save.
    match goal with |- context [Image_save (fs w) ?im _ _] => set (output := im) end.
    destruct (Image_save (fs w) output output_path "PNG") as [[[]|e] fs'] eqn:Hsave;
      intros [= <- <-]; cbn [fs stdout];
      (split; [reflexivity |]); (split; [eauto |]);
      (split; [right; exists output; by rewrite Hsave | discriminate]).
  - rewrite (frame_screenshot_not_opened _ _ _ _ _ Hopen). intros [= <- <-].
    split; [reflexivity |]. split; [right; by exists e |]. split; [by left |].
    by intros e' [= <-].
Qed.

(** X7: the screenshot is pasted whole inside the canvas: PADDING to
    its left, PADDING to its right, PADDING below it, and above it the
    title band, which is 0 or 2 * TITLE_PADDING + FONT_SIZE high. *)
Theorem frame_screenshot_margins
    (input_path output_path language : string) (w : World) (screenshot : Image) :
  Image_open (fs w) input_path = Return screenshot →
  ∃ output x y,
    frame_screenshot input_path output_path language w
    = (save output output_path "PNG";; mret true) w
    ∧ Image_pastes output = [(screenshot, (x, y))]
    ∧ x = PADDING
    ∧ (y = 0 ∨ y = TITLE_PADDING + FONT_SIZE + TITLE_PADDING)%Z
    ∧ (x + fst (Image_size screenshot) + PADDING = fst (Image_size output))%Z
    ∧ (y + snd (Image_size screenshot) + PADDING = snd (Image_size output))%Z.
Proof.
  intros Hopen.
  destruct (get_font_run FONT_SIZE w) as [font Hfont].
  pose proof (frame_screenshot_run input_path output_path language w screenshot _ font
                Hopen (get_title_for_screenshot_eq _ _) Hfont) as Hrun.
  cbv zeta in Hrun.
  destruct (ImageDraw_textbbox font _) as [[[x0 y0] x1] y1].
  destruct (Str.truthy _); eexists _, _, _; (split; [exact Hrun |]);
    cbn [Image_pastes Image_size fst snd app];
    (split; [reflexivity |]); (split; [reflexivity |]);
    (split; [auto |]); unfold PADDING; lia.
Qed.

(** X8: the title is placed to the pixel: with x the position it is
    drawn at and text_width the width of its bounding box, x and
    output_width - (x + text_width) differ by at most one, the larger
    on the right.  A title wider than the canvas is not shrunk or
    wrapped: it is drawn at x < 0, and only then. *)
Theorem frame_screenshot_title_balance
    (input_path output_path language : string) (w : World) (screenshot : Image)
    (title : string) (font : Font) :
  Image_open (fs w) input_path = Return screenshot →
  get_title_for_screenshot input_path language = Return title →
  title ≠ "" →
  get_font FONT_SIZE w = (Return font, w) →
  ∃ output text_x text_y fill,
    frame_screenshot input_path output_path language w
    = (save output output_path "PNG";; mret true) w
    ∧ Image_texts output = [(text_x, text_y, title, fill, font)]
    ∧ let '(bbox0, _, bbox2, _) := ImageDraw_textbbox font title in
      let text_width := (bbox2 - bbox0)%Z in
      let left := text_x in
      let right := (fst (Image_size output) - (text_x + text_width))%Z in
      (left ≤ right ≤ left + 1)%Z
      ∧ (text_x < 0 ↔ fst (Image_size output) < text_width)%Z.
Proof.
  intros Hopen Htitle Hne Hfont.
  pose proof (frame_screenshot_run input_path output_path language w screenshot title font
                Hopen Htitle Hfont) as Hrun.
  cbv zeta in Hrun.
  apply truthy_spec in Hne. rewrite Hne in Hrun.
  destruct (ImageDraw_textbbox font title) as [[[x0 y0] x1] y1].
  eexists _, _, _, _. split; [exact Hrun |]. split; [reflexivity |].
  cbn [Image_size fst].
  set (room := (fst (Image_size screenshot) + PADDING * 2 - (x1 - x0))%Z).
  pose proof (Z.div_mod room 2 ltac:(lia)) as Hdiv.
  pose proof (Z.mod_pos_bound room 2 ltac:(lia)) as Hmod.
  subst room. split; lia.
Qed.

(** X9: the theme follows the whole path, the title only the file
    name: a screenshot in a directory whose path contains "_Dark" gets
    the dark background, also when its own name has no "_Dark", and the
    title its name alone gets. *)
Theorem frame_screenshot_dark_directory
    (dir name output_path language : string) (w : World) (screenshot : Image) :
  Str.contains "_Dark" dir = true →
  Str.contains "/" name = false →
  Path.component name = true →
  Image_open (fs w) (dir ++ "/" ++ name) = Return screenshot →
  ∃ output,
    frame_screenshot (dir ++ "/" ++ name) output_path language w
    = (save output output_path "PNG";; mret true) w
    ∧ Image_background output = Some (28, 28, 30)%Z
    ∧ get_title_for_screenshot (dir ++ "/" ++ name) language
      = get_title_for_screenshot name language.
Proof.
  intros Hdark Hfree Hcomp Hopen.
  destruct (get_font_run FONT_SIZE w) as [font Hfont].
  pose proof (frame_screenshot_run (dir ++ "/" ++ name) output_path language w screenshot _ font
                Hopen (get_title_for_screenshot_eq _ _) Hfont) as Hrun.
  cbv zeta in Hrun. rewrite (contains_app_l _ _ _ Hdark) in Hrun.
  destruct (ImageDraw_textbbox font _) as [[[x0 y0] x1] y1].
  eexists. split; [exact Hrun |].
  split; [destruct (Str.truthy _); reflexivity |].
  exact (title_of_last_component dir name language Hfree Hcomp).
Qed.

(** *** get_font *)

Lemma get_font_from_first (font_paths : list string) (size : Z) (f : FS) :
  (get_font_from font_paths size f = ImageFont_load_default
   ∧ Forall (passed_over f size) font_paths)
  ∨ ∃ before font_path after font,
      font_paths = (before ++ font_path :: after)%list
      ∧ Forall (passed_over f size) before
      ∧ os_path_exists f font_path = true
      ∧ ImageFont_truetype f font_path size = Some font
      ∧ get_font_from font_paths size f = font.
Proof.
  induction font_paths as [|p ps IH]; [left; split; [reflexivity | constructor] |].
  cbn [get_font_from].
  destruct (os_path_exists f p) eqn:Hexists.
  - destruct (ImageFont_truetype f p size) as [font|] eqn:Hload.
    + right. exists [], p, ps, font. repeat split; [constructor | done..].
    + destruct IH as [[Hdef Hall] | (before & q & after & font & -> & Hbefore & Hq & Hfont & Hget)].
      * left. split; [exact Hdef |]. constructor; [by right | exact Hall].
      * right. exists (p :: before), q, after, font.
        repeat split; [constructor; [by right | exact Hbefore] | done..].
  - destruct IH as [[Hdef Hall] | (before & q & after & font & -> & Hbefore & Hq & Hfont & Hget)].
    + left. split; [exact Hdef |]. constructor; [by left | exact Hall].
    + right. exists (p :: before), q, after, font.
      repeat split; [constructor; [by left | exact Hbefore] | done..].
Qed.

(** X10: [get_font] changes nothing and returns the font of the first
    of its four paths, in their order, that is there and loads at the
    size, every path before it being missing or failing to load; when
    all four are passed over it returns the default font. *)
Theorem get_font_first_that_loads (size : Z) (w : World) :
  let font_paths :=
    [ "/System/Library/Fonts/SFNS.ttf";
      "/System/Library/Fonts/SFNSDisplay.ttf";
      "/System/Library/Fonts/Helvetica.ttc";
      "/Library/Fonts/Arial.ttf" ] in
  (get_font size w = (Return ImageFont_load_default, w)
   ∧ Forall (passed_over (fs w) size) font_paths)
  ∨ ∃ before font_path after font,
      font_paths = (before ++ font_path :: after)%list
      ∧ Forall (passed_over (fs w) size) before
      ∧ os_path_exists (fs w) font_path = true
      ∧ ImageFont_truetype (fs w) font_path size = Some font
      ∧ get_font size w = (Return font, w).
Proof.
  intros font_paths.
  destruct (get_font_from_first font_paths size (fs w))
    as [[Hdef Hall] | (before & p & after & font & Hsplit & Hbefore & Hp & Hfont & Hget)].
  - left. split; [| exact Hall]. unfold get_font, read. fold font_paths. by rewrite Hdef.
  - right. exists before, p, after, font. repeat split; try done.
    unfold get_font, read. fold font_paths. by rewrite Hget.
Qed.

End FramingMore.

(** ** More on process_screenshots, and the entry point *)

Section BatchMore.

Context {Pl : Platform}.

Local Abbreviation free c s := (Str.contains (String c "") s = false).

Lemma framed_name (file : Path.t) :
  path_ok file → Path.name (framed_path file) = Path.stem file ++ "_framed.png".
Proof.
  intros Hok. rewrite (framed_path_eq file Hok). unfold Path.name. cbn [Path.parts].
  apply List.last_last.
Qed.

Lemma framed_not_submitted (file : Path.t) : path_ok file → submitted (framed_path file) = false.
Proof.
  intros Hok. apply submitted_spec. left. rewrite (framed_name file Hok).
  by apply contains_app_r.
Qed.

(** X11: the framed output is written in the directory of its
    screenshot under the stem followed by "_framed.png", and when a run
    meets such a file it skips it: nothing is framed, printed or
    counted. *)
Theorem framed_output_skipped_later (s language : string) (counts : nat * nat) (w : World) :
  let file := Path.of_str s in
  Path.parent (framed_path file) = Path.parent file
  ∧ Path.name (framed_path file) = Path.stem file ++ "_framed.png"
  ∧ process_file language (framed_path file) counts w = (Return counts, w).
Proof.
  intros file. pose proof (of_str_ok s) as Hok. fold file in Hok.
  split; [| split; [exact (framed_name file Hok) |]].
  - rewrite (framed_path_eq file Hok). unfold Path.parent. cbn [Path.root Path.parts].
    by rewrite List.removelast_last.
  - rewrite process_file_eq, (framed_not_submitted file Hok). reflexivity.
Qed.

Lemma to_str_inj (p q : Path.t) : path_ok p → path_ok q → Path.to_str p = Path.to_str q → p = q.
Proof.
  intros Hp Hq Heq. rewrite <- (of_str_to_str p Hp), <- (of_str_to_str q Hq). by rewrite Heq.
Qed.

(** X12: the output of a screenshot is never written over a file the
    run frames, and screenshots with different stems are written to
    different outputs. *)
Theorem framed_outputs_do_not_collide (s1 s2 : string) :
  let file1 := Path.of_str s1 in
  let file2 := Path.of_str s2 in
  (submitted file2 = true → Path.to_str (framed_path file1) ≠ Path.to_str file2)
  ∧ (Path.stem file1 ≠ Path.stem file2 →
     Path.to_str (framed_path file1) ≠ Path.to_str (framed_path file2)).
Proof.
  intros file1 file2.
  pose proof (of_str_ok s1) as Hok1. pose proof (of_str_ok s2) as Hok2.
  fold file1 in Hok1. fold file2 in Hok2. split.
  - intros Hsub Heq.
    apply to_str_inj in Heq; [| by apply framed_path_ok | exact Hok2].
    rewrite <- Heq, (framed_not_submitted file1 Hok1) in Hsub. discriminate.
  - intros Hne Heq.
    apply to_str_inj in Heq; [| by apply framed_path_ok..].
    apply (f_equal Path.name) in Heq.
    rewrite (framed_name file1 Hok1), (framed_name file2 Hok2) in Heq.
    by apply append_cancel_r in Heq.
Qed.

(** X13: whenever the loop over the files of a language directory
    returns, every file it does not skip has been counted once and
    logged once: the two counters never decrease, together they grow by
    the number of files not skipped, and so does the number of lines
    printed.  On a stdout that takes every line the loop does return. *)
Theorem process_files_counts_every_file (language : string) (files : list Path.t)
    (processed skipped : nat) (w : World) :
  (∀ processed' skipped' w',
     for_each files (process_file language) (processed, skipped) w
     = (Return (processed', skipped'), w') →
     ∃ new,
       (processed' + skipped' = processed + skipped + length (List.filter submitted files))%nat
       ∧ (processed ≤ processed')%nat ∧ (skipped ≤ skipped')%nat
       ∧ stdout w' = (stdout w ++ new)%list
       ∧ length new = length (List.filter submitted files))
  ∧ (stdout_takes_all →
     ∃ processed' skipped' w',
       for_each files (process_file language) (processed, skipped) w
       = (Return (processed', skipped'), w')).
Proof.
  split.
  - revert processed skipped w.
    induction files as [|file files IH]; intros processed skipped w processed' skipped' w'.
    + intros [= <- <- <-]. exists []. rewrite app_nil_r. cbn. repeat split; lia.
    + rewrite for_each_cons, process_file_eq. cbn [List.filter].
      destruct (submitted file); [| apply IH].
      unfold mbind, M_bind.
      destruct (attempt_frame language file (processed, skipped) w) as [r w1] eqn:Hrun.
      destruct (attempt_frame_outcome _ _ _ _ _ _ _ Hrun)
        as [(e & -> & _) | [(-> & Hout) | (e & -> & Hout)]]; [discriminate | |];
        intros Hrest; apply IH in Hrest as (new & Hsum & Hp & Hs & Hout' & Hlen).
      * exists (("  ✓ " ++ Path.name file) :: new).
        rewrite Hout', Hout, <- app_assoc. cbn [length]. repeat split; lia.
      * exists (("  ✗ " ++ Path.name file ++ ": " ++ exc_str e) :: new).
        rewrite Hout', Hout, <- app_assoc. cbn [length]. repeat split; lia.
  - intros Hall.
    destruct (process_files_return language files (processed, skipped) w Hall)
      as ([processed' skipped'] & w' & Hrun).
    by exists processed', skipped', w'.
Qed.

(** *** The directory *)



Lemma process_language_returns (lang_dir : Path.t) (counts : nat * nat) (w : World) :
  stdout_takes_all →
  (∀ f d, ∃ files, path_glob f d "*.png" = Return files) →
  ∃ counts' w', process_language lang_dir counts w = (Return counts', w').
Proof.
  intros Hall Hglob. unfold process_language, read. unfold mbind at 1. unfold M_bind at 1.
  destruct (path_is_dir (fs w) lang_dir); cbn [negb]; [| by eexists _, _].
  unfold mbind at 1. unfold M_bind at 1. unfold print_encoded at 1. rewrite Hall.
  unfold print at 1.
  unfold mbind at 1. unfold M_bind at 1. unfold glob. cbn [fs stdout].
  destruct (Hglob (fs w) lang_dir) as [files ->].
  exact (process_files_return (Path.name lang_dir) files counts
           {| fs := fs w;
              stdout := stdout w ++ [nl ++ "Processing " ++ Path.name lang_dir ++ "..."] |}
           Hall).
Qed.

Lemma process_languages_return (lang_dirs : list Path.t) (counts : nat * nat) (w : World) :
  stdout_takes_all →
  (∀ f d, ∃ files, path_glob f d "*.png" = Return files) →
  ∃ counts' w', for_each lang_dirs process_language counts w = (Return counts', w').
Proof.
  intros Hall Hglob. revert counts w.
  induction lang_dirs as [|lang_dir lang_dirs IH]; intros counts w; [by eexists _, _ |].
  destruct (process_language_returns lang_dir counts w Hall Hglob) as (c1 & w1 & Hdir).
  destruct (IH c1 w1) as (c2 & w2 & Hrest).
  exists c2, w2. rewrite for_each_cons, (bind_returns _ _ _ _ _ Hdir). exact Hrest.
Qed.

(** X15: the value returned only tells whether the directory was
    there: False when it was missing, True otherwise, however many files
    failed.  When the directory and its language directories can be
    listed and stdout takes every line, the run returns True: no
    failure in framing a file keeps it from finishing. *)
Theorem process_screenshots_returns (screenshots_dir : string) (w : World) :
  (∀ (b : bool) (w' : World),
     process_screenshots screenshots_dir w = (Return b, w') →
     b = path_exists (fs w) (Path.of_str screenshots_dir))
  ∧ (∀ lang_dirs : list Path.t,
       path_exists (fs w) (Path.of_str screenshots_dir) = true →
       path_iterdir (fs w) (Path.of_str screenshots_dir) = Return lang_dirs →
       (∀ f d, ∃ files, path_glob f d "*.png" = Return files) →
       stdout_takes_all →
       ∃ w', process_screenshots screenshots_dir w = (Return true, w')).
Proof.
  split.
  - intros b w'. unfold process_screenshots, read.
    unfold mbind at 1. unfold M_bind at 1.
    destruct (path_exists (fs w) _); cbn [negb]; [| by intros [= <- _]].
    unfold mbind at 1. unfold M_bind at 1. unfold iterdir.
    destruct (path_iterdir (fs w) _) as [lang_dirs|e]; [| discriminate].
    unfold mbind at 1. unfold M_bind at 1.
    destruct (for_each lang_dirs process_language (0, 0)%nat w)
      as [[[processed skipped]|e] w1]; [| discriminate].
    by intros [= <- _].
  - intros lang_dirs Hfound Hlist Hglob Hall. unfold process_screenshots, read.
    unfold mbind at 1. unfold M_bind at 1. rewrite Hfound. cbn [negb].
    unfold mbind at 1. unfold M_bind at 1. unfold iterdir. rewrite Hlist.
    destruct (process_languages_return lang_dirs (0, 0)%nat w Hall Hglob)
      as ([processed skipped] & w1 & Hloop).
    rewrite (bind_returns _ _ _ _ _ Hloop). by eexists.
Qed.

(** *** The entry point *)


End BatchMore.

(** ** More of the script on the small platform *)

Lemma hex_to_rgb_six_digits_witness :
  hex_to_rgb "007affCC" = Return (0, 122, 255)%Z
  ∧ hex_to_rgb "#007affCC" = Return (0, 122, 255)%Z.
Proof.
  destruct (hex_to_rgb_six_digits "0" "0" "7" "a" "f" "f" 0 0 7 10 15 15 "CC"
              eq_refl eq_refl eq_refl eq_refl eq_refl eq_refl) as (Hplain & Hhash & _).
  split; [exact Hplain | exact Hhash].
Defined.

Lemma hex_to_rgb_short_raises_witness :
  (String.length (Str.lstrip "#" "#FFF") ≤ 4)%nat
  ∧ ∃ arg, hex_to_rgb "#FFF" = Raise (Exc "ValueError" arg).
Proof.
  assert (Hlen : (String.length (Str.lstrip "#" "#FFF") ≤ 4)%nat)
    by (apply Nat.leb_le; reflexivity).
  split; [exact Hlen | exact (hex_to_rgb_short_raises "#FFF" Hlen)].
Defined.

Lemma get_title_of_screenshot_name_witness :
  ∃ title,
    title ≠ ""
    ∧ get_title_for_screenshot
        ("/shots/ko" ++ "/" ++ "iPad Pro 13-inch (M4)" ++ "-" ++ "05_ChatView" ++ ".png") "ko"
      = Return title
    ∧ get_title_for_screenshot
        ("/shots/ko" ++ "/" ++ "iPad Pro 13-inch (M4)" ++ "-" ++ "05_ChatView" ++ "_Dark.png") "ko"
      = Return title.
Proof.
  assert (Hkey : "05_ChatView" ∈ screenshot_keys)
    by (apply (bool_decide_unpack _); vm_compute; exact I).
  assert (Hlang : TITLES !! "ko" = Some (default ∅ (TITLES !! "ko")))
    by (vm_cast_no_check (eq_refl (Some (default ∅ (TITLES !! "ko"))))).
  destruct (get_title_of_screenshot_name "/shots/ko" "iPad Pro 13-inch (M4)" "05_ChatView" "ko"
              _ eq_refl Hkey Hlang) as (title & _ & Hne & Hlight & Hdark).
  exists title. split; [exact Hne |]. split; [exact Hlight | exact Hdark].
Defined.

Lemma get_title_ignores_device_and_directory_witness :
  get_title_for_screenshot ("/shots/ja" ++ "/" ++ "iPhone 17 Pro Max" ++ "-" ++ "08_Settings" ++ ".png") "ja"
  = get_title_for_screenshot ("." ++ "/" ++ "08_Settings" ++ ".png") "ja".
Proof.
  apply get_title_ignores_device_and_directory; [reflexivity.. | discriminate].
Defined.

Lemma get_title_reads_file_name_only_witness :
  get_title_for_screenshot ("/shots/ja" ++ "/" ++ "iPhone 17 Pro Max-08_Settings.png") "ja"
  = get_title_for_screenshot "iPhone 17 Pro Max-08_Settings.png" "ja".
Proof. apply get_title_reads_file_name_only; reflexivity. Defined.

Lemma frame_screenshot_effects_witness :
  stdout (snd (frame_screenshot light_png light_framed "en-US" Demo.start)) = stdout Demo.start
  ∧ (Return true = Return true ∨ ∃ e, Return true = Raise e)
  ∧ (fs (snd (frame_screenshot light_png light_framed "en-US" Demo.start)) = fs Demo.start
     ∨ ∃ output,
         fs (snd (frame_screenshot light_png light_framed "en-US" Demo.start))
         = snd (Image_save (fs Demo.start) output light_framed "PNG"))
  ∧ (∀ e, Image_open (fs Demo.start) light_png = Raise e →
          Return true = Raise e
          ∧ snd (frame_screenshot light_png light_framed "en-US" Demo.start) = Demo.start).
Proof.
  refine (frame_screenshot_effects (Pl := Demo.platform) light_png light_framed "en-US"
            Demo.start (snd (frame_screenshot light_png light_framed "en-US" Demo.start))
            (Return true) _).
  by_evaluation.
Defined.

Lemma frame_screenshot_margins_witness :
  ∃ output x y,
    frame_screenshot light_png light_framed "en-US" Demo.start
    = (save output light_framed "PNG";; mret true) Demo.start
    ∧ Image_pastes output = [(Decoded (1320, 2868)%Z 1, (x, y))]
    ∧ x = PADDING
    ∧ (y = 0 ∨ y = TITLE_PADDING + FONT_SIZE + TITLE_PADDING)%Z
    ∧ (x + fst (1320, 2868) + PADDING = fst (Image_size output))%Z
    ∧ (y + snd (1320, 2868) + PADDING = snd (Image_size output))%Z.
Proof.
  refine (frame_screenshot_margins (Pl := Demo.platform) light_png light_framed "en-US"
            Demo.start (Decoded (1320, 2868)%Z 1) _).
  by_evaluation.
Defined.

Lemma frame_screenshot_title_balance_witness :
  ∃ output text_x text_y fill,
    frame_screenshot light_png light_framed "en-US" Demo.start
    = (save output light_framed "PNG";; mret true) Demo.start
    ∧ Image_texts output = [(text_x, text_y, "Discover Nearby Devices", fill, DefaultFont)]
    ∧ (text_x ≤ fst (Image_size output) - (text_x + (920 - 0)) ≤ text_x + 1)%Z
    ∧ (text_x < 0 ↔ fst (Image_size output) < 920 - 0)%Z.
Proof.
  refine (frame_screenshot_title_balance (Pl := Demo.platform)
            light_png light_framed "en-US" Demo.start (Decoded (1320, 2868)%Z 1)
            "Discover Nearby Devices" DefaultFont _ _ _ _).
  - by_evaluation.
  - by_evaluation.
  - discriminate.
  - by_evaluation.
Defined.

Lemma frame_screenshot_dark_directory_witness :
  Str.contains "_Dark" "iPhone 17 Pro Max-08_Settings.png" = false
  ∧ ∃ output,
      frame_screenshot ("/shots_Dark/en-US" ++ "/" ++ "iPhone 17 Pro Max-08_Settings.png")
        "/shots_Dark/en-US/iPhone 17 Pro Max-08_Settings_framed.png" "en-US" Demo.themed
      = (save output "/shots_Dark/en-US/iPhone 17 Pro Max-08_Settings_framed.png" "PNG";;
         mret true) Demo.themed
      ∧ Image_background output = Some (28, 28, 30)%Z
      ∧ get_title_for_screenshot
          ("/shots_Dark/en-US" ++ "/" ++ "iPhone 17 Pro Max-08_Settings.png") "en-US"
        = get_title_for_screenshot "iPhone 17 Pro Max-08_Settings.png" "en-US".
Proof.
  split; [reflexivity |].
  refine (frame_screenshot_dark_directory (Pl := Demo.platform)
            "/shots_Dark/en-US" "iPhone 17 Pro Max-08_Settings.png" _ "en-US" Demo.themed
            (Decoded (1320, 2868)%Z 5) eq_refl eq_refl eq_refl _).
  by_evaluation.
Defined.

Lemma framed_outputs_do_not_collide_witness :
  Path.to_str (framed_path (Path.of_str light_png)) ≠ Path.to_str (Path.of_str dark_png)
  ∧ Path.to_str (framed_path (Path.of_str light_png))
    ≠ Path.to_str (framed_path (Path.of_str dark_png)).
Proof.
  split.
  - apply (proj1 (framed_outputs_do_not_collide (Pl := Demo.platform) light_png dark_png)).
    reflexivity.
  - apply (proj2 (framed_outputs_do_not_collide (Pl := Demo.platform) light_png dark_png)).
    discriminate.
Defined.

Lemma process_files_counts_every_file_witness :
  (∃ new,
     (1 + 1 = 0 + 0 + length (List.filter (submitted (Pl := Demo.platform))
                                 [Path.of_str light_png; Path.of_str light_framed;
                                  Path.of_str broken_png]))%nat
     ∧ (0 ≤ 1)%nat ∧ (0 ≤ 1)%nat
     ∧ stdout (snd (for_each (Pl := Demo.platform)
                      [Path.of_str light_png; Path.of_str light_framed; Path.of_str broken_png]
                      (process_file "en-US") (0, 0)%nat Demo.start))
       = (stdout Demo.start ++ new)%list
     ∧ length new = length (List.filter (submitted (Pl := Demo.platform))
                              [Path.of_str light_png; Path.of_str light_framed;
                               Path.of_str broken_png]))
  ∧ ∃ processed' skipped' w',
      for_each (Pl := Demo.platform)
        [Path.of_str light_png; Path.of_str light_framed; Path.of_str broken_png]
        (process_file "en-US") (0, 0)%nat Demo.start
      = (Return (processed', skipped'), w').
Proof.
  split.
  - refine (proj1 (process_files_counts_every_file (Pl := Demo.platform) "en-US"
                     [Path.of_str light_png; Path.of_str light_framed; Path.of_str broken_png]
                     0%nat 0%nat Demo.start)
              1%nat 1%nat
              (snd (for_each (Pl := Demo.platform)
                      [Path.of_str light_png; Path.of_str light_framed; Path.of_str broken_png]
                      (process_file "en-US") (0, 0)%nat Demo.start)) _).
    by_evaluation.
  - refine (proj2 (process_files_counts_every_file (Pl := Demo.platform) "en-US"
                     [Path.of_str light_png; Path.of_str light_framed; Path.of_str broken_png]
                     0%nat 0%nat Demo.start) _).
    intros printed line. reflexivity.
Defined.


Lemma process_screenshots_returns_witness :
  ∃ w', process_screenshots (Pl := Demo.platform) "/shots" Demo.start = (Return true, w').
Proof.
  refine (proj2 (process_screenshots_returns (Pl := Demo.platform) "/shots" Demo.start)
            [Path.of_str "/shots/en-US"; Path.of_str "/shots/notes.txt"] _ _ _ _).
  - reflexivity.
  - by_evaluation.
  - intros f d. eexists. reflexivity.
  - intros printed line. reflexivity.
Defined.

(** Two leading slashes of the script's path are kept in the line. *)
Example main_two_slashes :
  main (Pl := Demo.platform) ["frame_screenshots.py"] "//x/y.py" Demo.start
  = (Return tt,
     @mkWorld Demo.platform (fs Demo.start)
       (stdout Demo.start ++ ["Error: Screenshots directory not found: //x/screenshots"])).
Proof. by_evaluation. Qed.

